(** * ACTS core: DD4hep layer builder and the [any_of] meta-function

    A shallow embedding of

    - [Core/include/ACTS/Utilities/detail/MPL/any_of.hpp]
    - [Plugins/DD4hepPlugin/src/DD4hepLayerBuilder.cpp]

    together with the properties stated about them.

    Conventions of the embedding.

    - A C++ [double] is idealised as an exact rational ([Q]): the builder
      only adds, subtracts, multiplies, divides, takes absolute values and
      compares, and no property below is about rounding.  Equalities that
      hold by data flow are Leibniz equalities; equalities that need
      arithmetic are stated with [==].
    - Objects created with [new], [make_shared] or [make_unique] are values;
      a pointer that may be null is an [option].
    - The builder logs, throws, and can dereference a null pointer: these
      effects are threaded through the monad [Exec].
    - Classes whose code is not part of the plugin file (DD4hep's detector
      element, ROOT's shapes, the ACTS surfaces and layers) are records
      holding what the builder reads from them or passes to their
      constructors. *)

From Stdlib Require Import QArith Qabs List String Ascii ZArith NArith Bool.
From Stdlib Require Import DecimalString Lia Lqa Permutation.
Import ListNotations.

Set Warnings "-register-all".

(* ===================================================================== *)
(** * Part I: [Acts::detail::any_of] *)
(* ===================================================================== *)

Module MPL.

(** [template <bool... values> struct any_of]: the primary template derives
    from [std::false_type]; the partial specialisation for a pack starting
    with [true] derives from [std::true_type]; the one for a pack starting
    with [false] derives from [any_of<others...>].  The only pack matched by
    no specialisation is the empty one. *)
Fixpoint any_of (values : list bool) : bool :=
  match values with
  | [] => false
  | true :: _others => true
  | false :: others => any_of others
  end.

(** [template <bool... values> constexpr bool any_of_v]. *)
Definition any_of_v (values : list bool) : bool := any_of values.

End MPL.

(* ===================================================================== *)
(** * Part II: data model of the layer builder *)
(* ===================================================================== *)

Open Scope Q_scope.

(** ** Linear algebra ([Vector3D], [Transform3D]) *)

Record Vector3D := mkVector3D { vx : Q; vy : Q; vz : Q }.

Definition vadd (a b : Vector3D) : Vector3D :=
  mkVector3D (vx a + vx b) (vy a + vy b) (vz a + vz b).
Definition vsub (a b : Vector3D) : Vector3D :=
  mkVector3D (vx a - vx b) (vy a - vy b) (vz a - vz b).
Definition vscale (a : Vector3D) (s : Q) : Vector3D :=
  mkVector3D (vx a * s) (vy a * s) (vz a * s).

(** A rigid transform: the three columns of its rotation and its
    translation. *)
Record Transform3D := mkTransform3D {
  col0 : Vector3D;
  col1 : Vector3D;
  col2 : Vector3D;
  translation : Vector3D
}.

(** [Transform3D(transform->rotation(), pos)]: same rotation, new
    translation. *)
Definition Transform3D_of_rotation (t : Transform3D) (pos : Vector3D)
  : Transform3D :=
  mkTransform3D (col0 t) (col1 t) (col2 t) pos.

(** ** Binning *)

Inductive BinningOption := open | closed.
Inductive BinningValue := binR | binPhi | binZ.
Inductive BinningType := equidistant | arbitrary.

(** The arguments of one [BinUtility] constructor call. *)
Record BinningData := mkBinningData {
  bd_bins : N;
  bd_min : Q;
  bd_max : Q;
  bd_option : BinningOption;
  bd_value : BinningValue;
  bd_transform : option Transform3D
}.

(** A [BinUtility] is the sequence of its one-dimensional binnings;
    [operator+=] appends those of its argument. *)
Definition BinUtility := list BinningData.

Definition BinUtility_ctor (bins : N) (lo hi : Q) (opt : BinningOption)
  (value : BinningValue) (tr : option Transform3D) : BinUtility :=
  [mkBinningData bins lo hi opt value tr].

Definition BinUtility_plus (a b : BinUtility) : BinUtility := (a ++ b)%list.

(** The [double] constant [M_PI] (the binary64 number nearest to pi). *)
Definition M_PI : Q := 884279719003555 # 281474976710656.

(** ** Material *)

(** [Acts::Material(X0, L0, A, Z, rho)]. *)
Record Material := mkMaterial {
  mat_X0 : Q;
  mat_L0 : Q;
  mat_A : Q;
  mat_Z : Q;
  mat_rho : Q
}.

(** [Acts::MaterialProperties(material, thickness)]. *)
Record MaterialProperties := mkMaterialProperties {
  mp_material : Material;
  thickness : Q
}.

(** The subclasses of [SurfaceMaterial] the builder creates. *)
Inductive SurfaceMaterial :=
| HomogeneousSurfaceMaterial (properties : MaterialProperties)
| SurfaceMaterialProxy (binUtility : BinUtility).

(** A digitization module is only passed on: an opaque handle. *)
Definition DigitizationModule := N.

(** ** The ACTS extension of a detector element ([IActsExtension]) *)

(** [enum LayerMaterialPos]; the builder logs it as
    "inner=0 / center=1 / outer=2". *)
Inductive LayerMaterialPos := inner | central | outer.

Definition LayerMaterialPos_eqb (a b : LayerMaterialPos) : bool :=
  match a, b with
  | inner, inner | central, central | outer, outer => true
  | _, _ => false
  end.

Definition LayerMaterialPos_to_N (p : LayerMaterialPos) : N :=
  match p with inner => 0 | central => 1 | outer => 2 end%N.

Record IActsExtension := mkExtension {
  axes : string;
  buildEnvelope : bool;
  envelopeR : Q;
  envelopeZ : Q;
  hasSupportMaterial : bool;
  materialBins : N * N;
  layerMaterialPosition : LayerMaterialPos;
  material : option SurfaceMaterial;
  digitizationModule : option DigitizationModule
}.

(** ** ROOT shapes *)

(** The shapes a volume may carry.  [TGeoTubeSeg] derives from [TGeoTube],
    which derives from [TGeoBBox]. *)
Inductive TGeoShape :=
| TGeoBBox (dx dy dz : Q)
| TGeoTube (rmin rmax dz : Q)
| TGeoTubeSeg (rmin rmax dz phi1 phi2 : Q).

(** What the builder reads from a [TGeoTubeSeg]. *)
Record TubeSeg := mkTubeSeg { GetRmin : Q; GetRmax : Q; GetDz : Q }.

(** [dynamic_cast<TGeoTubeSeg*>(geoShape)]: null unless the dynamic type
    is [TGeoTubeSeg]. *)
Definition dynamic_cast_TGeoTubeSeg (s : TGeoShape) : option TubeSeg :=
  match s with
  | TGeoTubeSeg rmin rmax dz _ _ => Some (mkTubeSeg rmin rmax dz)
  | TGeoTube _ _ _ | TGeoBBox _ _ _ => None
  end.

(** [TGeoMatrix]: a row-major 3x3 rotation and a translation. *)
Record TGeoMatrix := mkTGeoMatrix {
  rot0 : Q; rot1 : Q; rot2 : Q;
  rot3 : Q; rot4 : Q; rot5 : Q;
  rot6 : Q; rot7 : Q; rot8 : Q;
  tr0 : Q; tr1 : Q; tr2 : Q
}.

(** ** DD4hep detector elements *)

(** [dd4hep::Material]. *)
Record DDMaterial := mkDDMaterial {
  dd_name : string;
  radLength : Q;
  intLength : Q;
  dd_A : Q;
  dd_Z : Q;
  density : Q
}.

(** [dd4hep::DetElement].  [children] is a [std::map] from names to
    detector elements: it is listed in the order in which the map is
    iterated.  [extension] is [None] when no [IActsExtension] is attached
    (the DD4hep lookup then throws). *)
Inductive DetElement := mkDetElement {
  name : string;
  worldTransformation : TGeoMatrix;
  shape : option TGeoShape;
  volMaterial : DDMaterial;
  isSensitive : bool;
  extension : option IActsExtension;
  children : list (string * DetElement)
}.

(** ** Surfaces *)

(** [Acts::DD4hepDetElement], by the arguments of its constructor. *)
Record DD4hepDetElement := mkDD4hepDetElement {
  de_detElement : DetElement;
  de_axes : string;
  de_scalor : Q;
  de_isDisc : bool;
  de_material : option SurfaceMaterial;
  de_buildDigitizationModules : bool;
  de_digiModule : option DigitizationModule
}.

(** [Acts::DiscSurface(transform, rmin, rmax)] and its associated
    material (null after construction). *)
Record DiscSurface := mkDiscSurface {
  ds_transform : Transform3D;
  ds_rmin : Q;
  ds_rmax : Q;
  ds_material : option SurfaceMaterial
}.

(** [Acts::CylinderSurface(transform, radius, halfZ)] and its associated
    material (null after construction). *)
Record CylinderSurface := mkCylinderSurface {
  cs_transform : Transform3D;
  cs_radius : Q;
  cs_halfZ : Q;
  cs_material : option SurfaceMaterial
}.

Definition new_DiscSurface (t : Transform3D) (rmin rmax : Q) : DiscSurface :=
  mkDiscSurface t rmin rmax None.

Definition new_CylinderSurface (t : Transform3D) (radius halfZ : Q)
  : CylinderSurface :=
  mkCylinderSurface t radius halfZ None.

(** [surface->setAssociatedMaterial(material)]. *)
Definition DiscSurface_setAssociatedMaterial (s : DiscSurface)
  (m : option SurfaceMaterial) : DiscSurface :=
  mkDiscSurface (ds_transform s) (ds_rmin s) (ds_rmax s) m.

Definition CylinderSurface_setAssociatedMaterial (s : CylinderSurface)
  (m : option SurfaceMaterial) : CylinderSurface :=
  mkCylinderSurface (cs_transform s) (cs_radius s) (cs_halfZ s) m.

(** A [const Acts::Surface*]: a disc, a cylinder, or the surface exposed by
    a detector element. *)
Inductive Surface :=
| OfDisc (s : DiscSurface)
| OfCylinder (s : CylinderSurface)
| OfDetElement (e : DD4hepDetElement).

(** The material proxy a boundary surface carries, if any. *)
Definition Surface_associatedMaterial (s : Surface) : option SurfaceMaterial :=
  match s with
  | OfDisc d => ds_material d
  | OfCylinder c => cs_material c
  | OfDetElement e => de_material e
  end.

(** [GenericApproachDescriptor<Surface>(aSurfaces)]: it holds the surfaces
    it is given (and deletes them when it is destroyed). *)
Record ApproachDescriptor := mkApproachDescriptor {
  ad_surfaces : list Surface
}.

(** ** Proto layers and layers *)

Record ProtoLayer := mkProtoLayer {
  minR : Q;
  maxR : Q;
  minZ : Q;
  maxZ : Q;
  envR : Q * Q;
  envZ : Q * Q
}.

Definition set_minR (pl : ProtoLayer) (v : Q) : ProtoLayer :=
  mkProtoLayer v (maxR pl) (minZ pl) (maxZ pl) (envR pl) (envZ pl).
Definition set_maxR (pl : ProtoLayer) (v : Q) : ProtoLayer :=
  mkProtoLayer (minR pl) v (minZ pl) (maxZ pl) (envR pl) (envZ pl).
Definition set_minZ (pl : ProtoLayer) (v : Q) : ProtoLayer :=
  mkProtoLayer (minR pl) (maxR pl) v (maxZ pl) (envR pl) (envZ pl).
Definition set_maxZ (pl : ProtoLayer) (v : Q) : ProtoLayer :=
  mkProtoLayer (minR pl) (maxR pl) (minZ pl) v (envR pl) (envZ pl).
Definition set_envR (pl : ProtoLayer) (v : Q * Q) : ProtoLayer :=
  mkProtoLayer (minR pl) (maxR pl) (minZ pl) (maxZ pl) v (envZ pl).
Definition set_envZ (pl : ProtoLayer) (v : Q * Q) : ProtoLayer :=
  mkProtoLayer (minR pl) (maxR pl) (minZ pl) (maxZ pl) (envR pl) v.

Inductive LayerType := navigation | passive | active.

Inductive LayerBounds :=
| RadialBounds (rmin rmax : Q)
| CylinderBounds (radius halfZ : Q).

(** [SurfaceArray(SingleElementLookup(s), {s})]. *)
Record SurfaceArray := mkSurfaceArray {
  sa_lookup : Surface;
  sa_surfaces : list Surface
}.

Inductive LayerKind := DiscLayer | CylinderLayer.

(** A layer: the arguments of [DiscLayer::create] / [CylinderLayer::create]
    and the material associated with its surface representation. *)
Record Layer := mkLayer {
  l_kind : LayerKind;
  l_transform : Transform3D;
  l_bounds : LayerBounds;
  l_surfaceArray : option SurfaceArray;
  l_thickness : Q;
  l_approachDescriptor : option ApproachDescriptor;
  l_type : LayerType;
  l_material : option SurfaceMaterial
}.

Definition LayerVector := list Layer.

Definition DiscLayer_create (t : Transform3D) (b : LayerBounds)
  (sArray : option SurfaceArray) (th : Q) (ad : option ApproachDescriptor)
  (ty : LayerType) : Layer :=
  mkLayer DiscLayer t b sArray th ad ty None.

Definition CylinderLayer_create (t : Transform3D) (b : LayerBounds)
  (sArray : option SurfaceArray) (th : Q) (ad : option ApproachDescriptor)
  (ty : LayerType) : Layer :=
  mkLayer CylinderLayer t b sArray th ad ty None.

(** [layer->surfaceRepresentation().setAssociatedMaterial(m)]. *)
Definition Layer_setAssociatedMaterial (l : Layer)
  (m : option SurfaceMaterial) : Layer :=
  mkLayer (l_kind l) (l_transform l) (l_bounds l) (l_surfaceArray l)
    (l_thickness l) (l_approachDescriptor l) (l_type l) m.

(** The two operations of the layer-assembly collaborator
    ([m_cfg.layerCreator]). *)
Record LayerCreator := mkLayerCreator {
  discLayer : list Surface -> BinningType -> BinningType -> ProtoLayer ->
              Transform3D -> option ApproachDescriptor -> Layer;
  cylinderLayer : list Surface -> BinningType -> BinningType -> ProtoLayer ->
                  Transform3D -> option ApproachDescriptor -> Layer
}.

(** [DD4hepLayerBuilder::Config]. *)
Record Config := mkConfig {
  negativeLayers_cfg : list DetElement;
  centralLayers_cfg : list DetElement;
  positiveLayers_cfg : list DetElement;
  bTypeR : BinningType;
  bTypePhi : BinningType;
  bTypeZ : BinningType;
  layerCreator : LayerCreator;
  buildDigitizationModules : bool
}.

(** ** Effects: logging, exceptions, null dereference *)

Inductive LogLevel := VERBOSE | ERROR.

Record LogEntry := mkLogEntry { log_level : LogLevel; log_text : string }.

Definition Log := list LogEntry.

(** The exceptions that can leave the builder: its own
    [std::logic_error], and the [std::runtime_error] of a failed DD4hep
    extension lookup (whose text the builder never reads). *)
Inductive Exception :=
| logic_error (what : string)
| runtime_error.

(** How a call ends: it returns, an exception leaves it, or it
    dereferences a null pointer (undefined behaviour). *)
Inductive Outcome (A : Type) :=
| Returned (a : A)
| Thrown (e : Exception)
| NullDereference.

Arguments Returned {A} a.
Arguments Thrown {A} e.
Arguments NullDereference {A}.

Definition Exec (A : Type) : Type := Log -> Outcome A * Log.

Definition ret {A} (a : A) : Exec A := fun lg => (Returned a, lg).

Definition bind {A B} (m : Exec A) (k : A -> Exec B) : Exec B :=
  fun lg =>
    match m lg with
    | (Returned a, lg') => k a lg'
    | (Thrown e, lg') => (Thrown e, lg')
    | (NullDereference, lg') => (NullDereference, lg')
    end.

Definition throw {A} (e : Exception) : Exec A := fun lg => (Thrown e, lg).

(** The logging macros [ACTS_VERBOSE] and [ACTS_ERROR] are defined with
    the logger, outside the plugin file: they hand the streamed text to the
    logger at their level and return. *)
Definition ACTS_VERBOSE (msg : string) : Exec unit :=
  fun lg => (Returned tt, (lg ++ [mkLogEntry VERBOSE msg])%list).

Definition ACTS_ERROR (msg : string) : Exec unit :=
  fun lg => (Returned tt, (lg ++ [mkLogEntry ERROR msg])%list).

(** [p->member] for a pointer that may be null. *)
Definition deref {A} (p : option A) : Exec A :=
  fun lg =>
    match p with
    | Some a => (Returned a, lg)
    | None => (NullDereference, lg)
    end.

Declare Scope exec_scope.
Delimit Scope exec_scope with exec.
Notation "x <- m ;; k" := (bind m (fun x => k))
  (at level 61, m at next level, right associativity) : exec_scope.
Notation "m ;;; k" := (bind m (fun _ => k))
  (at level 61, right associativity) : exec_scope.

(** A range-based [for] over [xs] that threads the loop-carried variable. *)
Fixpoint for_each {A S} (xs : list A) (s : S) (body : S -> A -> Exec S)
  : Exec S :=
  match xs with
  | [] => ret s
  | x :: xs' => bind (body s x) (fun s' => for_each xs' s' body)
  end.

(** The value a call returns, if it returns. *)
Definition returned {A} (r : Outcome A * Log) : option A :=
  match fst r with
  | Returned a => Some a
  | _ => None
  end.

(** [std::vector::push_back]. *)
Definition push_back {A} (v : list A) (x : A) : list A := (v ++ [x])%list.

(** ** Strings *)

Open Scope string_scope.

(** [std::toupper] in the classic locale. *)
Definition toupper (c : ascii) : ascii :=
  let n := nat_of_ascii c in
  if (97 <=? n)%nat && (n <=? 122)%nat then ascii_of_nat (n - 32) else c.

(** [boost::iequals]: equal lengths and pairwise equal upper-cased
    characters. *)
Fixpoint iequals (a b : string) : bool :=
  match a, b with
  | EmptyString, EmptyString => true
  | String x a', String y b' =>
      Ascii.eqb (toupper x) (toupper y) && iequals a' b'
  | _, _ => false
  end.

(** [operator<<] for an unsigned integer. *)
Definition string_of_N (n : N) : string :=
  NilZero.string_of_uint (N.to_uint n).

(* ===================================================================== *)
(** * Part III: [Acts::DD4hepLayerBuilder] *)
(* ===================================================================== *)

Open Scope exec_scope.

Section DD4hepLayerBuilder.

(** Declared outside the plugin file: the length unit [Acts::units::_cm],
    the constructor [ProtoLayer(surfaces)] which measures the extent of a
    list of surfaces, and the default arguments of
    [createSensitiveSurface] (given in the class declaration). *)
Variable units_cm : Q.
Variable ProtoLayer_ctor : list Surface -> ProtoLayer.
Variable default_isDisc : bool.
Variable default_axes : string.

(** [detElement.extension<Acts::IActsExtension>()]: DD4hep throws a
    [std::runtime_error] when the element has no such extension. *)
Definition get_extension (detElement : DetElement) : Exec IActsExtension :=
  match extension detElement with
  | Some e => ret e
  | None => throw runtime_error
  end.

(** [DD4hepLayerBuilder::convertTransform] (lines 742-756). *)
Definition convertTransform (tGeoTrans : TGeoMatrix) : Transform3D :=
  mkTransform3D
    (mkVector3D (rot0 tGeoTrans) (rot3 tGeoTrans) (rot6 tGeoTrans))
    (mkVector3D (rot1 tGeoTrans) (rot4 tGeoTrans) (rot7 tGeoTrans))
    (mkVector3D (rot2 tGeoTrans) (rot5 tGeoTrans) (rot8 tGeoTrans))
    (mkVector3D (tr0 tGeoTrans * units_cm)
                (tr1 tGeoTrans * units_cm)
                (tr2 tGeoTrans * units_cm)).

(** [DD4hepLayerBuilder::createSensitiveSurface] (lines 708-740).  The
    lookup of the extension is wrapped in [try]/[catch]: a missing
    extension leaves [detExtension] null. *)
Definition createSensitiveSurface (cfg : Config) (detElement : DetElement)
  (isDisc : bool) (axes_ : string) : Surface :=
  let material_ : option SurfaceMaterial := None in
  let digiModule : option DigitizationModule := None in
  let detExtension : option IActsExtension := extension detElement in
  let '(material_, digiModule) :=
    match detExtension with
    | Some e => (material e, digitizationModule e)
    | None => (material_, digiModule)
    end in
  let dd4hepDetElement :=
    mkDD4hepDetElement detElement axes_ units_cm isDisc material_
      (buildDigitizationModules cfg) digiModule in
  OfDetElement dd4hepDetElement.

(** [DD4hepLayerBuilder::collectSensitive] (lines 689-707).  The
    accumulator [surfaces] is passed by reference in the source; here the
    updated vector is returned. *)
Fixpoint collectSensitive (cfg : Config) (detElement : DetElement)
  (surfaces : list Surface) (axes_ : string) {struct detElement}
  : list Surface :=
  let children_ := children detElement in
  match children_ with
  | [] => surfaces
  | _ :: _ =>
      (fix loop (cs : list (string * DetElement)) (surfaces : list Surface)
         {struct cs} : list Surface :=
         match cs with
         | [] => surfaces
         | child :: cs' =>
             let childDetElement := snd child in
             let surfaces :=
               if isSensitive childDetElement
               then push_back surfaces
                      (createSensitiveSurface cfg childDetElement false axes_)
               else surfaces in
             let surfaces :=
               collectSensitive cfg childDetElement surfaces axes_ in
             loop cs' surfaces
         end) children_ surfaces
  end.

(** The message of the [std::logic_error] thrown for an element with
    neither a shape nor envelope tolerances (byte for byte). *)
Definition no_shape_message (detElement : DetElement) : string :=
  "Layer DetElement: " ++ name detElement ++
  " has neither a shape nor tolerances for envelopes " ++
  "added to it" ++ String (ascii_of_nat 194) (String (ascii_of_nat 165)
  "s extension. Please check your detector constructor!").

(** The text streamed by the [ACTS_VERBOSE] call of the material block. *)
Definition material_message (layerPos : LayerMaterialPos) (bins1 bins2 : N)
  : string :=
  "[L] Layer is marked to carry support material on Surface ( " ++
  "inner=0 / center=1 / outer=2 ) :   " ++
  string_of_N (LayerMaterialPos_to_N layerPos) ++
  "    with binning: [" ++ string_of_N bins1 ++ ", " ++
  string_of_N bins2 ++ "]".

(* --------------------------------------------------------------------- *)
(** ** [negativeLayers] (lines 52-268) *)
(* --------------------------------------------------------------------- *)

(** Lines 92-102: the radial and longitudinal extent of the tube. *)
Definition negativeLayers_tubeExtent (transform : Transform3D)
  (tube : TubeSeg) : Q * Q * Q * Q :=
  let rMin := GetRmin tube * units_cm in
  let rMax := GetRmax tube * units_cm in
  let zMin :=
    vz (vsub (translation transform)
             (vscale (vscale (col2 transform) (GetDz tube)) units_cm)) in
  let zMax :=
    vz (vadd (translation transform)
             (vscale (vscale (col2 transform) (GetDz tube)) units_cm)) in
  let '(zMin, zMax) :=
    if Qlt_le_dec zMax zMin then (zMax, zMin) else (zMin, zMax) in
  (rMin, rMax, zMin, zMax).

(** Lines 81-125: the proto layer. *)
Definition negativeLayers_protoLayer (detElement : DetElement)
  (detExtension : IActsExtension) (layerSurfaces : list Surface)
  (transform : Transform3D) (geoShape : option TGeoShape)
  : Exec ProtoLayer :=
  let pl := ProtoLayer_ctor layerSurfaces in
  if buildEnvelope detExtension then
    let pl := set_envR pl (envelopeR detExtension, envelopeR detExtension) in
    let pl := set_envZ pl (envelopeZ detExtension, envelopeZ detExtension) in
    ret pl
  else
    match geoShape with
    | Some gs =>
        let tube := dynamic_cast_TGeoTubeSeg gs in
        (match tube with
         | None =>
             ACTS_ERROR
               "[L] Disc layer has wrong shape - needs to be TGeoTubeSeg!"
         | Some _ => ret tt
         end) ;;;
        tube_ <- deref tube ;;
        let '(rMin, rMax, zMin, zMax) :=
          negativeLayers_tubeExtent transform tube_ in
        match layerSurfaces with
        | [] =>
            let pl := set_minR pl rMin in
            let pl := set_maxR pl rMax in
            let pl := set_minZ pl zMin in
            let pl := set_maxZ pl zMax in
            let pl := set_envR pl (0, 0) in
            let pl := set_envZ pl (0, 0) in
            ret pl
        | _ :: _ =>
            let pl :=
              set_envZ pl (Qabs (zMin - minZ pl), Qabs (zMax - maxZ pl)) in
            let pl :=
              set_envR pl (Qabs (rMin - minR pl), Qabs (rMax - maxR pl)) in
            ret pl
        end
    | None => throw (logic_error (no_shape_message detElement))
    end.

(** Lines 127-208: the approach descriptor of a layer with support
    material. *)
Definition negativeLayers_approachDescriptor (detExtension : IActsExtension)
  (pl : ProtoLayer) (transform : Transform3D)
  : Exec (option ApproachDescriptor) :=
  let materialProxy : option SurfaceMaterial := None in
  let approachDescriptor : option ApproachDescriptor := None in
  if hasSupportMaterial detExtension then
    let materialBins_ := materialBins detExtension in
    let bins1 := fst materialBins_ in
    let bins2 := snd materialBins_ in
    let materialBinUtil :=
      BinUtility_ctor bins1 (- M_PI) M_PI closed binPhi None in
    let materialBinUtil :=
      BinUtility_plus materialBinUtil
        (BinUtility_ctor bins2 (minR pl) (maxR pl) open binR
           (Some transform)) in
    let materialProxy := Some (SurfaceMaterialProxy materialBinUtil) in
    let layerPos := layerMaterialPosition detExtension in
    ACTS_VERBOSE (material_message layerPos bins1 bins2) ;;;
    let aSurfaces : list Surface := [] in
    let layerThickness :=
      Qabs (minZ pl - maxZ pl) + fst (envZ pl) + snd (envZ pl) in
    let innerPos :=
      vsub (translation transform)
           (vscale (vscale (col2 transform) layerThickness) (1 # 2)) in
    let outerPos :=
      vadd (translation transform)
           (vscale (vscale (col2 transform) layerThickness) (1 # 2)) in
    let '(innerPos, outerPos) :=
      if Qlt_le_dec (vz outerPos) (vz innerPos)
      then (outerPos, innerPos) else (innerPos, outerPos) in
    let innerBoundary :=
      new_DiscSurface (Transform3D_of_rotation transform innerPos)
        (minR pl) (maxR pl) in
    let outerBoundary :=
      new_DiscSurface (Transform3D_of_rotation transform outerPos)
        (minR pl) (maxR pl) in
    let centralSurface := new_DiscSurface transform (minR pl) (maxR pl) in
    let innerBoundary :=
      if LayerMaterialPos_eqb layerPos inner
      then DiscSurface_setAssociatedMaterial innerBoundary materialProxy
      else innerBoundary in
    let outerBoundary :=
      if LayerMaterialPos_eqb layerPos outer
      then DiscSurface_setAssociatedMaterial outerBoundary materialProxy
      else outerBoundary in
    let centralSurface :=
      if LayerMaterialPos_eqb layerPos central
      then DiscSurface_setAssociatedMaterial centralSurface materialProxy
      else centralSurface in
    let aSurfaces := push_back aSurfaces (OfDisc innerBoundary) in
    let aSurfaces := push_back aSurfaces (OfDisc outerBoundary) in
    let aSurfaces := push_back aSurfaces (OfDisc centralSurface) in
    ret (Some (mkApproachDescriptor aSurfaces))
  else ret approachDescriptor.

(** Lines 209-240: the layer, built directly around the sensitive surface
    of a sensitive element, or by the layer creator. *)
Definition negativeLayers_createLayer (cfg : Config)
  (detElement : DetElement) (layerSurfaces : list Surface)
  (pl : ProtoLayer) (transform : Transform3D)
  (approachDescriptor : option ApproachDescriptor) : Layer :=
  if isSensitive detElement then
    let sensitiveSurf :=
      createSensitiveSurface cfg detElement true default_axes in
    let sArray := mkSurfaceArray sensitiveSurf [sensitiveSurf] in
    let dBounds := RadialBounds (minR pl) (maxR pl) in
    let thickness_ := Qabs (maxZ pl - minZ pl) in
    DiscLayer_create transform dBounds (Some sArray) thickness_
      approachDescriptor active
  else
    discLayer (layerCreator cfg) layerSurfaces (bTypeR cfg) (bTypePhi cfg)
      pl transform approachDescriptor.

(** Lines 242-258: the bulk material of the layer. *)
Definition negativeLayers_surfaceMaterial (detElement : DetElement)
  (pl : ProtoLayer) : option SurfaceMaterial :=
  let surfMaterial : option SurfaceMaterial := None in
  let ddmaterial := volMaterial detElement in
  if negb (iequals (dd_name ddmaterial) "vacuum") then
    let layerMaterial :=
      mkMaterial (radLength ddmaterial * units_cm)
                 (intLength ddmaterial * units_cm)
                 (dd_A ddmaterial)
                 (dd_Z ddmaterial)
                 (density ddmaterial / units_cm ^ 3) in
    let materialProperties :=
      mkMaterialProperties layerMaterial (Qabs (maxR pl - minR pl)) in
    Some (HomogeneousSurfaceMaterial materialProperties)
  else surfMaterial.

(** Lines 62-264: the body of the loop over the elements. *)
Definition negativeLayers_body (cfg : Config) (layers : LayerVector)
  (detElement : DetElement) : Exec LayerVector :=
  let layerSurfaces : list Surface := [] in
  detExtension <- get_extension detElement ;;
  let axes_ := axes detExtension in
  let layerSurfaces :=
    collectSensitive cfg detElement layerSurfaces axes_ in
  let transform := convertTransform (worldTransformation detElement) in
  let geoShape := shape detElement in
  pl <- negativeLayers_protoLayer detElement detExtension layerSurfaces
          transform geoShape ;;
  approachDescriptor <-
    negativeLayers_approachDescriptor detExtension pl transform ;;
  let negativeLayer :=
    negativeLayers_createLayer cfg detElement layerSurfaces pl transform
      approachDescriptor in
  let surfMaterial := negativeLayers_surfaceMaterial detElement pl in
  let negativeLayer := Layer_setAssociatedMaterial negativeLayer surfMaterial in
  ret (push_back layers negativeLayer).

Definition negativeLayers (cfg : Config) : Exec LayerVector :=
  let layers : LayerVector := [] in
  match negativeLayers_cfg cfg with
  | [] =>
      ACTS_VERBOSE "[L] No layers handed over for negative volume." ;;;
      ret layers
  | _ :: _ =>
      ACTS_VERBOSE
        "[L] Received layers for negative volume -> creating disc layers" ;;;
      layers <- for_each (negativeLayers_cfg cfg) layers
                  (negativeLayers_body cfg) ;;
      ret layers
  end.

(* --------------------------------------------------------------------- *)
(** ** [centralLayers] (lines 270-472) *)
(* --------------------------------------------------------------------- *)

(** Lines 311-313: the radii and the half length of the tube. *)
Definition centralLayers_tubeExtent (tube : TubeSeg) : Q * Q * Q :=
  let rMin := GetRmin tube * units_cm in
  let rMax := GetRmax tube * units_cm in
  let dz := GetDz tube * units_cm in
  (rMin, rMax, dz).

(** Lines 299-335: the proto layer. *)
Definition centralLayers_protoLayer (detElement : DetElement)
  (detExtension : IActsExtension) (layerSurfaces : list Surface)
  (geoShape : option TGeoShape) : Exec ProtoLayer :=
  let pl := ProtoLayer_ctor layerSurfaces in
  if buildEnvelope detExtension then
    let pl := set_envR pl (envelopeR detExtension, envelopeR detExtension) in
    let pl := set_envZ pl (envelopeZ detExtension, envelopeZ detExtension) in
    ret pl
  else
    match geoShape with
    | Some gs =>
        let tube := dynamic_cast_TGeoTubeSeg gs in
        (match tube with
         | None =>
             ACTS_ERROR
               "[L] Cylinder layer has wrong shape - needs to be TGeoTubeSeg!"
         | Some _ => ret tt
         end) ;;;
        tube_ <- deref tube ;;
        let '(rMin, rMax, dz) := centralLayers_tubeExtent tube_ in
        match layerSurfaces with
        | [] =>
            let pl := set_minR pl rMin in
            let pl := set_maxR pl rMax in
            let pl := set_minZ pl (- dz) in
            let pl := set_maxZ pl dz in
            let pl := set_envR pl (0, 0) in
            let pl := set_envZ pl (0, 0) in
            ret pl
        | _ :: _ =>
            let pl :=
              set_envZ pl (Qabs (- dz - minZ pl), Qabs (dz - maxZ pl)) in
            let pl :=
              set_envR pl (Qabs (rMin - minR pl), Qabs (rMax - maxR pl)) in
            ret pl
        end
    | None => throw (logic_error (no_shape_message detElement))
    end.

(** Line 337. *)
Definition centralLayers_halfZ (pl : ProtoLayer) : Q :=
  (minZ pl - maxZ pl) * (1 # 2).

(** Lines 339-409: the approach descriptor of a layer with support
    material. *)
Definition centralLayers_approachDescriptor (detExtension : IActsExtension)
  (pl : ProtoLayer) (transform : Transform3D) (halfZ : Q)
  : Exec (option ApproachDescriptor) :=
  let materialProxy : option SurfaceMaterial := None in
  let approachDescriptor : option ApproachDescriptor := None in
  if hasSupportMaterial detExtension then
    let aSurfaces : list Surface := [] in
    let innerBoundary := new_CylinderSurface transform (minR pl) halfZ in
    let outerBoundary := new_CylinderSurface transform (maxR pl) halfZ in
    let centralSurface :=
      new_CylinderSurface transform ((minR pl + maxR pl) * (1 # 2)) halfZ in
    let materialBins_ := materialBins detExtension in
    let bins1 := fst materialBins_ in
    let bins2 := snd materialBins_ in
    let materialBinUtil :=
      BinUtility_ctor bins1 (- M_PI) M_PI closed binPhi None in
    let materialBinUtil :=
      BinUtility_plus materialBinUtil
        (BinUtility_ctor bins2 (- halfZ) halfZ open binZ (Some transform)) in
    let materialProxy := Some (SurfaceMaterialProxy materialBinUtil) in
    let layerPos := layerMaterialPosition detExtension in
    ACTS_VERBOSE (material_message layerPos bins1 bins2) ;;;
    let innerBoundary :=
      if LayerMaterialPos_eqb layerPos inner
      then CylinderSurface_setAssociatedMaterial innerBoundary materialProxy
      else innerBoundary in
    let outerBoundary :=
      if LayerMaterialPos_eqb layerPos outer
      then CylinderSurface_setAssociatedMaterial outerBoundary materialProxy
      else outerBoundary in
    let centralSurface :=
      if LayerMaterialPos_eqb layerPos central
      then CylinderSurface_setAssociatedMaterial centralSurface materialProxy
      else centralSurface in
    let aSurfaces := push_back aSurfaces (OfCylinder innerBoundary) in
    let aSurfaces := push_back aSurfaces (OfCylinder centralSurface) in
    let aSurfaces := push_back aSurfaces (OfCylinder outerBoundary) in
    ret (Some (mkApproachDescriptor aSurfaces))
  else ret approachDescriptor.

(** Lines 411-443: the layer. *)
Definition centralLayers_createLayer (cfg : Config)
  (detElement : DetElement) (layerSurfaces : list Surface)
  (pl : ProtoLayer) (transform : Transform3D) (halfZ : Q)
  (approachDescriptor : option ApproachDescriptor) : Layer :=
  if isSensitive detElement then
    let sensitiveSurf :=
      createSensitiveSurface cfg detElement default_isDisc default_axes in
    let sArray := mkSurfaceArray sensitiveSurf [sensitiveSurf] in
    let layerR := (minR pl + maxR pl) * (1 # 2) in
    let thickness_ := Qabs (maxR pl - minR pl) in
    let cBounds := CylinderBounds layerR halfZ in
    CylinderLayer_create transform cBounds (Some sArray) thickness_
      approachDescriptor active
  else
    cylinderLayer (layerCreator cfg) layerSurfaces (bTypePhi cfg)
      (bTypeZ cfg) pl transform approachDescriptor.

(** Lines 445-463: the bulk material of the layer. *)
Definition centralLayers_surfaceMaterial (detElement : DetElement)
  (pl : ProtoLayer) : option SurfaceMaterial :=
  let surfMaterial : option SurfaceMaterial := None in
  let ddmaterial := volMaterial detElement in
  if negb (iequals (dd_name ddmaterial) "vacuum") then
    let layerMaterial :=
      mkMaterial (radLength ddmaterial * units_cm)
                 (intLength ddmaterial * units_cm)
                 (dd_A ddmaterial)
                 (dd_Z ddmaterial)
                 (density ddmaterial / units_cm ^ 3) in
    let materialProperties :=
      mkMaterialProperties layerMaterial (Qabs (maxR pl - minR pl)) in
    Some (HomogeneousSurfaceMaterial materialProperties)
  else surfMaterial.

(** Lines 280-469: the body of the loop over the elements. *)
Definition centralLayers_body (cfg : Config) (layers : LayerVector)
  (detElement : DetElement) : Exec LayerVector :=
  let layerSurfaces : list Surface := [] in
  detExtension <- get_extension detElement ;;
  let axes_ := axes detExtension in
  let layerSurfaces :=
    collectSensitive cfg detElement layerSurfaces axes_ in
  let transform := convertTransform (worldTransformation detElement) in
  let geoShape := shape detElement in
  pl <- centralLayers_protoLayer detElement detExtension layerSurfaces
          geoShape ;;
  let halfZ := centralLayers_halfZ pl in
  approachDescriptor <-
    centralLayers_approachDescriptor detExtension pl transform halfZ ;;
  let centralLayer :=
    centralLayers_createLayer cfg detElement layerSurfaces pl transform
      halfZ approachDescriptor in
  let surfMaterial := centralLayers_surfaceMaterial detElement pl in
  let centralLayer := Layer_setAssociatedMaterial centralLayer surfMaterial in
  ret (push_back layers centralLayer).

Definition centralLayers (cfg : Config) : Exec LayerVector :=
  let layers : LayerVector := [] in
  match centralLayers_cfg cfg with
  | [] =>
      ACTS_VERBOSE "[L] No layers handed over for central volume!" ;;;
      ret layers
  | _ :: _ =>
      ACTS_VERBOSE
        ("[L] Received layers for central volume -> creating " ++
         "cylindrical layers") ;;;
      layers <- for_each (centralLayers_cfg cfg) layers
                  (centralLayers_body cfg) ;;
      ret layers
  end.

(* --------------------------------------------------------------------- *)
(** ** [positiveLayers] (lines 474-687) *)
(* --------------------------------------------------------------------- *)

(** Lines 514-524: the radial and longitudinal extent of the tube. *)
Definition positiveLayers_tubeExtent (transform : Transform3D)
  (tube : TubeSeg) : Q * Q * Q * Q :=
  let rMin := GetRmin tube * units_cm in
  let rMax := GetRmax tube * units_cm in
  let zMin :=
    vz (vsub (translation transform)
             (vscale (vscale (col2 transform) (GetDz tube)) units_cm)) in
  let zMax :=
    vz (vadd (translation transform)
             (vscale (vscale (col2 transform) (GetDz tube)) units_cm)) in
  let '(zMin, zMax) :=
    if Qlt_le_dec zMax zMin then (zMax, zMin) else (zMin, zMax) in
  (rMin, rMax, zMin, zMax).

(** Lines 503-546: the proto layer. *)
Definition positiveLayers_protoLayer (detElement : DetElement)
  (detExtension : IActsExtension) (layerSurfaces : list Surface)
  (transform : Transform3D) (geoShape : option TGeoShape)
  : Exec ProtoLayer :=
  let pl := ProtoLayer_ctor layerSurfaces in
  if buildEnvelope detExtension then
    let pl := set_envR pl (envelopeR detExtension, envelopeR detExtension) in
    let pl := set_envZ pl (envelopeZ detExtension, envelopeZ detExtension) in
    ret pl
  else
    match geoShape with
    | Some gs =>
        let tube := dynamic_cast_TGeoTubeSeg gs in
        (match tube with
         | None =>
             ACTS_ERROR
               "[L] Disc layer has wrong shape - needs to be TGeoTubeSeg!"
         | Some _ => ret tt
         end) ;;;
        tube_ <- deref tube ;;
        let '(rMin, rMax, zMin, zMax) :=
          positiveLayers_tubeExtent transform tube_ in
        match layerSurfaces with
        | [] =>
            let pl := set_minR pl rMin in
            let pl := set_maxR pl rMax in
            let pl := set_minZ pl zMin in
            let pl := set_maxZ pl zMax in
            let pl := set_envR pl (0, 0) in
            let pl := set_envZ pl (0, 0) in
            ret pl
        | _ :: _ =>
            let pl :=
              set_envZ pl (Qabs (zMin - minZ pl), Qabs (zMax - maxZ pl)) in
            let pl :=
              set_envR pl (Qabs (rMin - minR pl), Qabs (rMax - maxR pl)) in
            ret pl
        end
    | None => throw (logic_error (no_shape_message detElement))
    end.

(** Lines 548-628: the approach descriptor of a layer with support
    material. *)
Definition positiveLayers_approachDescriptor (detExtension : IActsExtension)
  (pl : ProtoLayer) (transform : Transform3D)
  : Exec (option ApproachDescriptor) :=
  let materialProxy : option SurfaceMaterial := None in
  let approachDescriptor : option ApproachDescriptor := None in
  if hasSupportMaterial detExtension then
    let materialBins_ := materialBins detExtension in
    let bins1 := fst materialBins_ in
    let bins2 := snd materialBins_ in
    let materialBinUtil :=
      BinUtility_ctor bins1 (- M_PI) M_PI closed binPhi None in
    let materialBinUtil :=
      BinUtility_plus materialBinUtil
        (BinUtility_ctor bins2 (minR pl) (maxR pl) open binR
           (Some transform)) in
    let materialProxy := Some (SurfaceMaterialProxy materialBinUtil) in
    let layerPos := layerMaterialPosition detExtension in
    ACTS_VERBOSE (material_message layerPos bins1 bins2) ;;;
    let aSurfaces : list Surface := [] in
    let layerThickness :=
      Qabs (minZ pl - maxZ pl) + fst (envZ pl) + snd (envZ pl) in
    let innerPos :=
      vsub (translation transform)
           (vscale (vscale (col2 transform) layerThickness) (1 # 2)) in
    let outerPos :=
      vadd (translation transform)
           (vscale (vscale (col2 transform) layerThickness) (1 # 2)) in
    let '(innerPos, outerPos) :=
      if Qlt_le_dec (vz outerPos) (vz innerPos)
      then (outerPos, innerPos) else (innerPos, outerPos) in
    let innerBoundary :=
      new_DiscSurface (Transform3D_of_rotation transform innerPos)
        (minR pl) (maxR pl) in
    let outerBoundary :=
      new_DiscSurface (Transform3D_of_rotation transform outerPos)
        (minR pl) (maxR pl) in
    let centralSurface := new_DiscSurface transform (minR pl) (maxR pl) in
    let innerBoundary :=
      if LayerMaterialPos_eqb layerPos inner
      then DiscSurface_setAssociatedMaterial innerBoundary materialProxy
      else innerBoundary in
    let outerBoundary :=
      if LayerMaterialPos_eqb layerPos outer
      then DiscSurface_setAssociatedMaterial outerBoundary materialProxy
      else outerBoundary in
    let centralSurface :=
      if LayerMaterialPos_eqb layerPos central
      then DiscSurface_setAssociatedMaterial centralSurface materialProxy
      else centralSurface in
    let aSurfaces := push_back aSurfaces (OfDisc innerBoundary) in
    let aSurfaces := push_back aSurfaces (OfDisc centralSurface) in
    let aSurfaces := push_back aSurfaces (OfDisc outerBoundary) in
    ret (Some (mkApproachDescriptor aSurfaces))
  else ret approachDescriptor.

(** Lines 630-660: the layer. *)
Definition positiveLayers_createLayer (cfg : Config)
  (detElement : DetElement) (layerSurfaces : list Surface)
  (pl : ProtoLayer) (transform : Transform3D)
  (approachDescriptor : option ApproachDescriptor) : Layer :=
  if isSensitive detElement then
    let sensitiveSurf :=
      createSensitiveSurface cfg detElement true default_axes in
    let sArray := mkSurfaceArray sensitiveSurf [sensitiveSurf] in
    let dBounds := RadialBounds (minR pl) (maxR pl) in
    let thickness_ := Qabs (maxZ pl - minZ pl) in
    DiscLayer_create transform dBounds (Some sArray) thickness_
      approachDescriptor active
  else
    discLayer (layerCreator cfg) layerSurfaces (bTypeR cfg) (bTypePhi cfg)
      pl transform approachDescriptor.

(** Lines 662-678: the bulk material of the layer. *)
Definition positiveLayers_surfaceMaterial (detElement : DetElement)
  (pl : ProtoLayer) : option SurfaceMaterial :=
  let surfMaterial : option SurfaceMaterial := None in
  let ddmaterial := volMaterial detElement in
  if negb (iequals (dd_name ddmaterial) "vacuum") then
    let layerMaterial :=
      mkMaterial (radLength ddmaterial * units_cm)
                 (intLength ddmaterial * units_cm)
                 (dd_A ddmaterial)
                 (dd_Z ddmaterial)
                 (density ddmaterial / units_cm ^ 3) in
    let materialProperties :=
      mkMaterialProperties layerMaterial (Qabs (maxR pl - minR pl)) in
    Some (HomogeneousSurfaceMaterial materialProperties)
  else surfMaterial.

(** Lines 484-683: the body of the loop over the elements. *)
Definition positiveLayers_body (cfg : Config) (layers : LayerVector)
  (detElement : DetElement) : Exec LayerVector :=
  let layerSurfaces : list Surface := [] in
  detExtension <- get_extension detElement ;;
  let axes_ := axes detExtension in
  let layerSurfaces :=
    collectSensitive cfg detElement layerSurfaces axes_ in
  let transform := convertTransform (worldTransformation detElement) in
  let geoShape := shape detElement in
  pl <- positiveLayers_protoLayer detElement detExtension layerSurfaces
          transform geoShape ;;
  approachDescriptor <-
    positiveLayers_approachDescriptor detExtension pl transform ;;
  let positiveLayer :=
    positiveLayers_createLayer cfg detElement layerSurfaces pl transform
      approachDescriptor in
  let surfMaterial := positiveLayers_surfaceMaterial detElement pl in
  let positiveLayer := Layer_setAssociatedMaterial positiveLayer surfMaterial in
  ret (push_back layers positiveLayer).

Definition positiveLayers (cfg : Config) : Exec LayerVector :=
  let layers : LayerVector := [] in
  match positiveLayers_cfg cfg with
  | [] =>
      ACTS_VERBOSE "[L] No layers handed over for positive volume!" ;;;
      ret layers
  | _ :: _ =>
      ACTS_VERBOSE
        "[L] Received layers for positive volume -> creating disc layers" ;;;
      layers <- for_each (positiveLayers_cfg cfg) layers
                  (positiveLayers_body cfg) ;;
      ret layers
  end.

End DD4hepLayerBuilder.

(* ===================================================================== *)
(** * Part IV: reference notions used to state the properties *)
(* ===================================================================== *)

(** The strict descendants of an element, depth first, every element
    before its own descendants, children in the order of iteration. *)
Fixpoint descendants (d : DetElement) : list DetElement :=
  flat_map (fun c => snd c :: descendants (snd c)) (children d).

(** The number of sensitive strict descendants, counted level by level. *)
Fixpoint sensitive_count (d : DetElement) : nat :=
  list_sum
    (map (fun c => ((if isSensitive (snd c) then 1 else 0)
                    + sensitive_count (snd c))%nat)
         (children d)).

(** The raw projection of the two ends of a tube on the global z axis,
    before any reordering (lines 94-101 and 516-523). *)
Definition raw_zMin (units_cm : Q) (transform : Transform3D) (tube : TubeSeg)
  : Q :=
  vz (vsub (translation transform)
           (vscale (vscale (col2 transform) (GetDz tube)) units_cm)).

Definition raw_zMax (units_cm : Q) (transform : Transform3D) (tube : TubeSeg)
  : Q :=
  vz (vadd (translation transform)
           (vscale (vscale (col2 transform) (GetDz tube)) units_cm)).

(** The longitudinal extent of a tube extent quadruple. *)
Definition extent_z (e : Q * Q * Q * Q) : Q * Q :=
  let '(_, _, zMin, zMax) := e in (zMin, zMax).

(** One iteration of the loop of [collectSensitive] over the children
    (lines 698-704). *)
Definition collect_child (units_cm : Q) (cfg : Config) (axes_ : string)
  (surfaces : list Surface) (child : string * DetElement) : list Surface :=
  collectSensitive units_cm cfg (snd child)
    (if isSensitive (snd child)
     then push_back surfaces
            (createSensitiveSurface units_cm cfg (snd child) false axes_)
     else surfaces)
    axes_.

(** What "the extent is returned ordered, and swapped exactly when the raw
    projection is inverted" says of a longitudinal extent [z] computed from
    the raw projections [lo] and [hi]. *)
Definition ordered_by_swap (lo hi : Q) (z : Q * Q) : Prop :=
  fst z <= snd z
  /\ (hi < lo -> z = (hi, lo))
  /\ (~ hi < lo -> z = (lo, hi))
  /\ (z <> (lo, hi) <-> hi < lo).

(** Structural induction on detector elements, with the induction
    hypothesis for every child. *)
Section DetElement_induction.

Variable P : DetElement -> Prop.
Hypothesis step :
  forall n w s m b e cs,
    Forall (fun c => P (snd c)) cs -> P (mkDetElement n w s m b e cs).

Fixpoint DetElement_nested_ind (d : DetElement) : P d :=
  match d with
  | mkDetElement n w s m b e cs =>
      step n w s m b e cs
        ((fix all (l : list (string * DetElement))
            : Forall (fun c => P (snd c)) l :=
            match l with
            | [] => Forall_nil _
            | c :: l' =>
                Forall_cons c (DetElement_nested_ind (snd c)) (all l')
            end) cs)
  end.

End DetElement_induction.

(** ** Predicates on proto layers and boundary surfaces *)

(** The proto layer adopts the extent of the shape, with zero padding. *)
Definition adopts_shape_extent (pl : ProtoLayer) (rMin rMax zMin zMax : Q)
  : Prop :=
  minR pl = rMin /\ maxR pl = rMax /\ minZ pl = zMin /\ maxZ pl = zMax
  /\ envR pl = (0, 0) /\ envZ pl = (0, 0).

(** The proto layer keeps the extent [pl0] measured on the surfaces and is
    padded by the absolute differences to the extent of the shape. *)
Definition pads_surface_extent (pl0 pl : ProtoLayer)
  (rMin rMax zMin zMax : Q) : Prop :=
  minR pl = minR pl0 /\ maxR pl = maxR pl0
  /\ minZ pl = minZ pl0 /\ maxZ pl = maxZ pl0
  /\ envR pl = (Qabs (rMin - minR pl0), Qabs (rMax - maxR pl0))
  /\ envZ pl = (Qabs (zMin - minZ pl0), Qabs (zMax - maxZ pl0)).

(** The proto layer keeps the extent [pl0] measured on the surfaces and
    gets the symmetric paddings [(eR, eR)] and [(eZ, eZ)]. *)
Definition explicit_envelope (pl0 pl : ProtoLayer) (eR eZ : Q) : Prop :=
  minR pl = minR pl0 /\ maxR pl = maxR pl0
  /\ minZ pl = minZ pl0 /\ maxZ pl = maxZ pl0
  /\ envR pl = (eR, eR) /\ envZ pl = (eZ, eZ).

Definition is_disc (s : Surface) : bool :=
  match s with OfDisc _ => true | _ => false end.

Definition is_cylinder (s : Surface) : bool :=
  match s with OfCylinder _ => true | _ => false end.

Definition has_material (s : Surface) : bool :=
  match Surface_associatedMaterial s with Some _ => true | None => false end.

(** Of the three boundary surfaces [i] (inner), [c] (central) and [o]
    (outer), the one at [layerPos] carries the material proxy [proxy] and
    the other two carry none. *)
Definition proxy_on_selected (layerPos : LayerMaterialPos)
  (proxy : SurfaceMaterial) (i c o : Surface) : Prop :=
  Surface_associatedMaterial i
    = (if LayerMaterialPos_eqb layerPos inner then Some proxy else None)
  /\ Surface_associatedMaterial c
    = (if LayerMaterialPos_eqb layerPos central then Some proxy else None)
  /\ Surface_associatedMaterial o
    = (if LayerMaterialPos_eqb layerPos outer then Some proxy else None).

(** ** Sample inputs *)

Definition identity_matrix : TGeoMatrix :=
  mkTGeoMatrix 1 0 0 0 1 0 0 0 1 0 0 0.


Definition vacuum : DDMaterial := mkDDMaterial "Vacuum" 0 0 0 0 0.

Definition iron : DDMaterial :=
  mkDDMaterial "Iron" (176 # 100) (1677 # 100) (5585 # 100) 26 (787 # 100).

(** An extension with no envelope and no support material. *)
Definition plain_extension : IActsExtension :=
  mkExtension "XYZ" false 0 0 false (0, 0)%N inner None None.

(** An extension with an explicit envelope of 1 in r and 2 in z. *)
Definition envelope_extension : IActsExtension :=
  mkExtension "XYZ" true 1 2 false (0, 0)%N inner None None.

(** An extension asking for support material on the outer surface. *)
Definition support_extension : IActsExtension :=
  mkExtension "XYZ" false 0 0 true (36, 10)%N outer None None.

(** A tube segment of radii 1 and 2 and half length 5 (in cm). *)
Definition sample_tube : TGeoShape := TGeoTubeSeg 1 2 5 0 360.

Definition sample_box : TGeoShape := TGeoBBox 1 2 5.

Definition sample_element (shape_ : option TGeoShape) (m : DDMaterial)
  (sensitive : bool) (ext : IActsExtension)
  (children_ : list (string * DetElement)) : DetElement :=
  mkDetElement "layer" identity_matrix shape_ m sensitive (Some ext)
    children_.

(** A stand-in for the layer creator: a passive layer sized by the proto
    layer. *)
Definition sample_creator : LayerCreator :=
  mkLayerCreator
    (fun _ _ _ pl t ad =>
       mkLayer DiscLayer t (RadialBounds (minR pl) (maxR pl)) None
         (Qabs (minZ pl - maxZ pl)) ad passive None)
    (fun _ _ _ pl t ad =>
       mkLayer CylinderLayer t
         (CylinderBounds ((minR pl + maxR pl) * (1 # 2))
            ((maxZ pl - minZ pl) * (1 # 2)))
         None (Qabs (maxR pl - minR pl)) ad passive None).

(** A stand-in for [ProtoLayer(surfaces)]: a fixed extent. *)
Definition sample_ProtoLayer_ctor (_ : list Surface) : ProtoLayer :=
  mkProtoLayer 12 18 (-40) 40 (0, 0) (0, 0).

Definition sample_config (negative_ central_ positive_ : list DetElement)
  : Config :=
  mkConfig negative_ central_ positive_ equidistant equidistant equidistant
    sample_creator false.

(** The identity transform, in mm. *)
Definition sample_transform : Transform3D :=
  convertTransform 10 identity_matrix.

(** ** The explicit-envelope property in the words of the specification *)

(** "Explicit-envelope nodes: output envR == envZ == (configuredMargin,
    configuredMargin) regardless of whether sensitive surfaces exist", for
    the proto layer of the central pipeline: one margin [margin] gives both
    paddings, and the extent is the one measured on the surfaces. *)
Definition explicit_envelope_single_margin : Prop :=
  forall (units_cm : Q) (ctor : list Surface -> ProtoLayer)
         (d : DetElement) (ext : IActsExtension) (surfaces : list Surface)
         (geoShape : option TGeoShape) (lg : Log),
    buildEnvelope ext = true ->
    exists pl margin,
      centralLayers_protoLayer units_cm ctor d ext surfaces geoShape lg
      = (Returned pl, lg)
      /\ envR pl = envZ pl
      /\ explicit_envelope (ctor surfaces) pl margin margin.

(** A central layer element: a tube segment of radii 1 cm and 2 cm and
    half length 5 cm, filled with vacuum, with no sensitive descendant. *)
Definition empty_tube_element : DetElement :=
  sample_element (Some sample_tube) vacuum false plain_extension [].

(** A sensitive module, and the same tube holding it. *)
Definition sample_module : DetElement :=
  mkDetElement "module" identity_matrix (Some sample_box) iron true None [].

Definition filled_tube_element : DetElement :=
  sample_element (Some sample_tube) vacuum false plain_extension
    [("module", sample_module)].

(** A sensitive disc layer element of iron: radii 1 cm and 2 cm, half
    length 5 cm. *)
Definition iron_disc_element : DetElement :=
  sample_element (Some sample_tube) iron true plain_extension [].

(** A central layer element whose shape is a box, and one with no shape. *)
Definition box_element : DetElement :=
  sample_element (Some sample_box) vacuum false plain_extension [].

Definition shapeless_element : DetElement :=
  sample_element None vacuum false plain_extension [].

(** ** The disc pipeline, factored *)

(** The order in which the three approach surfaces are bundled. *)
Inductive BundleOrder := InnerOuterCentral | InnerCentralOuter.

Definition bundle (order : BundleOrder) (i c o : Surface) : list Surface :=
  match order with
  | InnerOuterCentral => [i; o; c]
  | InnerCentralOuter => [i; c; o]
  end.

(** One disc pipeline for both end caps, parametrised by the bundling
    order and by the two progress messages of the region. *)
Section FactoredDiscPipeline.

Variable units_cm : Q.
Variable ProtoLayer_ctor : list Surface -> ProtoLayer.
Variable default_axes : string.
Variable order : BundleOrder.
Variable message_none : string.
Variable message_some : string.

Definition disc_protoLayer (d : DetElement) (ext : IActsExtension)
  (surfaces : list Surface) (t : Transform3D) : Exec ProtoLayer :=
  let pl0 := ProtoLayer_ctor surfaces in
  if buildEnvelope ext then
    ret (mkProtoLayer (minR pl0) (maxR pl0) (minZ pl0) (maxZ pl0)
           (envelopeR ext, envelopeR ext) (envelopeZ ext, envelopeZ ext))
  else
    match shape d with
    | None => throw (logic_error (no_shape_message d))
    | Some (TGeoTubeSeg rmin rmax dz _ _) =>
        let tube := mkTubeSeg rmin rmax dz in
        let lo := raw_zMin units_cm t tube in
        let hi := raw_zMax units_cm t tube in
        let z := if Qlt_le_dec hi lo then (hi, lo) else (lo, hi) in
        let rMin := rmin * units_cm in
        let rMax := rmax * units_cm in
        ret (match surfaces with
             | [] => mkProtoLayer rMin rMax (fst z) (snd z) (0, 0) (0, 0)
             | _ :: _ =>
                 mkProtoLayer (minR pl0) (maxR pl0) (minZ pl0) (maxZ pl0)
                   (Qabs (rMin - minR pl0), Qabs (rMax - maxR pl0))
                   (Qabs (fst z - minZ pl0), Qabs (snd z - maxZ pl0))
             end)
    | Some _ =>
        ACTS_ERROR
          "[L] Disc layer has wrong shape - needs to be TGeoTubeSeg!" ;;;
        deref None
    end.

Definition disc_approachDescriptor (ext : IActsExtension) (pl : ProtoLayer)
  (t : Transform3D) : Exec (option ApproachDescriptor) :=
  if hasSupportMaterial ext then
    let bins := materialBins ext in
    let proxy :=
      SurfaceMaterialProxy
        [mkBinningData (fst bins) (- M_PI) M_PI closed binPhi None;
         mkBinningData (snd bins) (minR pl) (maxR pl) open binR (Some t)] in
    let at_ (p : LayerMaterialPos) : option SurfaceMaterial :=
      if LayerMaterialPos_eqb (layerMaterialPosition ext) p
      then Some proxy else None in
    let th := Qabs (minZ pl - maxZ pl) + fst (envZ pl) + snd (envZ pl) in
    let below := vsub (translation t) (vscale (vscale (col2 t) th) (1 # 2)) in
    let above := vadd (translation t) (vscale (vscale (col2 t) th) (1 # 2)) in
    let ends :=
      if Qlt_le_dec (vz above) (vz below)
      then (above, below) else (below, above) in
    let bound (where_ : Vector3D) (p : LayerMaterialPos) : Surface :=
      OfDisc (mkDiscSurface (Transform3D_of_rotation t where_)
                (minR pl) (maxR pl) (at_ p)) in
    ACTS_VERBOSE
      (material_message (layerMaterialPosition ext) (fst bins) (snd bins)) ;;;
    ret (Some (mkApproachDescriptor
                 (bundle order
                    (bound (fst ends) inner)
                    (OfDisc (mkDiscSurface t (minR pl) (maxR pl)
                               (at_ central)))
                    (bound (snd ends) outer))))
  else ret None.

Definition disc_layer (cfg : Config) (d : DetElement)
  (surfaces : list Surface) (pl : ProtoLayer) (t : Transform3D)
  (ad : option ApproachDescriptor) : Layer :=
  let bulk :=
    if iequals (dd_name (volMaterial d)) "vacuum" then None
    else
      Some (HomogeneousSurfaceMaterial
              (mkMaterialProperties
                 (mkMaterial (radLength (volMaterial d) * units_cm)
                    (intLength (volMaterial d) * units_cm)
                    (dd_A (volMaterial d)) (dd_Z (volMaterial d))
                    (density (volMaterial d) / units_cm ^ 3))
                 (Qabs (maxR pl - minR pl)))) in
  let built :=
    if isSensitive d then
      let s := createSensitiveSurface units_cm cfg d true default_axes in
      mkLayer DiscLayer t (RadialBounds (minR pl) (maxR pl))
        (Some (mkSurfaceArray s [s])) (Qabs (maxZ pl - minZ pl)) ad active
        None
    else
      discLayer (layerCreator cfg) surfaces (bTypeR cfg) (bTypePhi cfg) pl t
        ad in
  Layer_setAssociatedMaterial built bulk.

Definition disc_body (cfg : Config) (layers : LayerVector) (d : DetElement)
  : Exec LayerVector :=
  ext <- get_extension d ;;
  let surfaces := collectSensitive units_cm cfg d [] (axes ext) in
  let t := convertTransform units_cm (worldTransformation d) in
  pl <- disc_protoLayer d ext surfaces t ;;
  ad <- disc_approachDescriptor ext pl t ;;
  ret (push_back layers (disc_layer cfg d surfaces pl t ad)).

Definition discLayers (cfg : Config) (nodes : list DetElement)
  : Exec LayerVector :=
  match nodes with
  | [] => ACTS_VERBOSE message_none ;;; ret []
  | _ :: _ => ACTS_VERBOSE message_some ;;; for_each nodes [] (disc_body cfg)
  end.

End FactoredDiscPipeline.

(** ** Notions for the further properties *)

(** What holds of a surface [s] collected below the element [d]: it is the
    surface of a detector element made for a sensitive strict descendant
    of [d], as a non-disc module with the axes [axes_], the length unit
    and the digitization switch of the configuration, and with the
    material and digitization module of the descendant's own extension, or
    none when it has no extension. *)
Definition collected_from (units_cm : Q) (cfg : Config) (axes_ : string)
  (d : DetElement) (s : Surface) : Prop :=
  exists e,
    s = OfDetElement e
    /\ In (de_detElement e) (descendants d)
    /\ isSensitive (de_detElement e) = true
    /\ de_isDisc e = false
    /\ de_axes e = axes_
    /\ de_scalor e = units_cm
    /\ de_buildDigitizationModules e = buildDigitizationModules cfg
    /\ de_material e
       = match extension (de_detElement e) with
         | Some x => material x
         | None => None
         end
    /\ de_digiModule e
       = match extension (de_detElement e) with
         | Some x => digitizationModule x
         | None => None
         end.

(** A tube holding two sensitive modules, the second without extension
    and with a sensitive sub-module of its own. *)
Definition module_extension : IActsExtension :=
  mkExtension "XZY" false 0 0 false (0, 0)%N inner
    (Some (SurfaceMaterialProxy [])) (Some 7%N).

Definition sample_submodule : DetElement :=
  mkDetElement "sub" identity_matrix None iron true None [].

Definition sample_module_a : DetElement :=
  mkDetElement "a" identity_matrix (Some sample_box) iron true
    (Some module_extension) [].

Definition sample_module_b : DetElement :=
  mkDetElement "b" identity_matrix (Some sample_box) iron true None
    [("sub", sample_submodule)].

Definition two_module_element : DetElement :=
  sample_element (Some sample_tube) vacuum false plain_extension
    [("a", sample_module_a); ("b", sample_module_b)].

(** The three regions, and the pipeline, node list and loop body of each
    (the three public methods of the builder, by name). *)
Inductive Region := Negative | Central | Positive.

Section Regions.

Variable units_cm : Q.
Variable ProtoLayer_ctor : list Surface -> ProtoLayer.
Variable default_isDisc : bool.
Variable default_axes : string.

Definition region_nodes (r : Region) (cfg : Config) : list DetElement :=
  match r with
  | Negative => negativeLayers_cfg cfg
  | Central => centralLayers_cfg cfg
  | Positive => positiveLayers_cfg cfg
  end.

Definition region_body (r : Region) (cfg : Config)
  : LayerVector -> DetElement -> Exec LayerVector :=
  match r with
  | Negative => negativeLayers_body units_cm ProtoLayer_ctor default_axes cfg
  | Central =>
      centralLayers_body units_cm ProtoLayer_ctor default_isDisc
        default_axes cfg
  | Positive => positiveLayers_body units_cm ProtoLayer_ctor default_axes cfg
  end.

Definition region_layers (r : Region) (cfg : Config) : Exec LayerVector :=
  match r with
  | Negative => negativeLayers units_cm ProtoLayer_ctor default_axes cfg
  | Central =>
      centralLayers units_cm ProtoLayer_ctor default_isDisc default_axes cfg
  | Positive => positiveLayers units_cm ProtoLayer_ctor default_axes cfg
  end.

Definition region_protoLayer (r : Region) (d : DetElement)
  (ext : IActsExtension) (surfaces : list Surface) (t : Transform3D)
  : Exec ProtoLayer :=
  match r with
  | Negative =>
      negativeLayers_protoLayer units_cm ProtoLayer_ctor d ext surfaces t
        (shape d)
  | Central =>
      centralLayers_protoLayer units_cm ProtoLayer_ctor d ext surfaces
        (shape d)
  | Positive =>
      positiveLayers_protoLayer units_cm ProtoLayer_ctor d ext surfaces t
        (shape d)
  end.

Definition region_approachDescriptor (r : Region) (ext : IActsExtension)
  (pl : ProtoLayer) (t : Transform3D) : Exec (option ApproachDescriptor) :=
  match r with
  | Negative => negativeLayers_approachDescriptor ext pl t
  | Central =>
      centralLayers_approachDescriptor ext pl t (centralLayers_halfZ pl)
  | Positive => positiveLayers_approachDescriptor ext pl t
  end.

Definition region_createLayer (r : Region) (cfg : Config) (d : DetElement)
  (surfaces : list Surface) (pl : ProtoLayer) (t : Transform3D)
  (ad : option ApproachDescriptor) : Layer :=
  match r with
  | Negative =>
      negativeLayers_createLayer units_cm default_axes cfg d surfaces pl t ad
  | Central =>
      centralLayers_createLayer units_cm default_isDisc default_axes cfg d
        surfaces pl t (centralLayers_halfZ pl) ad
  | Positive =>
      positiveLayers_createLayer units_cm default_axes cfg d surfaces pl t ad
  end.

Definition region_surfaceMaterial (r : Region) (d : DetElement)
  (pl : ProtoLayer) : option SurfaceMaterial :=
  match r with
  | Negative => negativeLayers_surfaceMaterial units_cm d pl
  | Central => centralLayers_surfaceMaterial units_cm d pl
  | Positive => positiveLayers_surfaceMaterial units_cm d pl
  end.

End Regions.

(** The loop body [body] builds the layer [l] for the element [d] on its
    own. *)
Definition builds (body : LayerVector -> DetElement -> Exec LayerVector)
  (d : DetElement) (l : Layer) : Prop :=
  exists lg lg', body [] d lg = (Returned [l], lg').

(** A layer element the builder can handle: it has an extension, and
    either an explicit envelope or a tube segment as its shape. *)
Definition buildable (d : DetElement) : bool :=
  match extension d with
  | None => false
  | Some ext =>
      buildEnvelope ext
      || match shape d with
         | Some s =>
             match dynamic_cast_TGeoTubeSeg s with
             | Some _ => true
             | None => false
             end
         | None => false
         end
  end.

Definition is_verbose (e : LogEntry) : Prop := log_level e = VERBOSE.

(** A layer element of iron with an explicit envelope and a box as shape. *)
Definition enveloped_box_element : DetElement :=
  sample_element (Some sample_box) iron false envelope_extension [].

(** A sensitive tube asking for support material. *)
Definition supported_tube_element : DetElement :=
  sample_element (Some sample_tube) iron true support_extension [].

Definition mixed_config : Config :=
  sample_config [supported_tube_element; empty_tube_element]
    [enveloped_box_element; filled_tube_element; supported_tube_element]
    [iron_disc_element].

(** The bulk material of the layer [l] is the one resolved from the native
    material of the element [d]: none for vacuum (in any casing),
    otherwise a homogeneous material with the unit-converted constants of
    the native material and a non-negative thickness. *)
Definition material_resolved (units_cm : Q) (d : DetElement) (l : Layer)
  : Prop :=
  if iequals (dd_name (volMaterial d)) "vacuum" then l_material l = None
  else
    exists m,
      l_material l = Some (HomogeneousSurfaceMaterial m)
      /\ mp_material m
         = mkMaterial (radLength (volMaterial d) * units_cm)
             (intLength (volMaterial d) * units_cm)
             (dd_A (volMaterial d)) (dd_Z (volMaterial d))
             (density (volMaterial d) / units_cm ^ 3)
      /\ 0 <= thickness m.

(** A layer creator that puts a material of its own on the layers it
    assembles. *)
Definition painting_creator : LayerCreator :=
  mkLayerCreator
    (fun _ _ _ pl t ad =>
       mkLayer DiscLayer t (RadialBounds (minR pl) (maxR pl)) None 1 ad
         passive (Some (SurfaceMaterialProxy [])))
    (fun _ _ _ pl t ad =>
       mkLayer CylinderLayer t (CylinderBounds (maxR pl) 1) None 1 ad
         passive (Some (SurfaceMaterialProxy []))).

Definition painting_config : Config :=
  mkConfig [] [empty_tube_element; enveloped_box_element] []
    equidistant equidistant equidistant painting_creator false.

(** The layer [l] built for a sensitive element [d] of the region [r]: an
    active disc or cylinder layer whose surface array holds exactly one
    surface, the one of [d] itself (made with the default axes, as a disc
    module in the disc regions), and whose thickness is not negative. *)
Definition own_surface_layer (units_cm : Q) (default_isDisc : bool)
  (default_axes : string) (r : Region) (cfg : Config) (d : DetElement)
  (l : Layer) : Prop :=
  let s :=
    createSensitiveSurface units_cm cfg d
      (match r with Central => default_isDisc | _ => true end)
      default_axes in
  l_type l = active
  /\ l_kind l = match r with Central => CylinderLayer | _ => DiscLayer end
  /\ l_surfaceArray l = Some (mkSurfaceArray s [s])
  /\ 0 <= l_thickness l.

(** The layer [l] built for a non-sensitive element [d] of the region [r]:
    the layer assembled by the layer creator from all the surfaces
    collected below [d], with the disc hints (r, phi) or the cylinder
    hints (phi, z), with the proto layer [pl] computed for [d], and with
    only its material replaced. *)
Definition delegated_layer (units_cm : Q)
  (ProtoLayer_ctor : list Surface -> ProtoLayer) (r : Region) (cfg : Config)
  (d : DetElement) (l : Layer) : Prop :=
  exists ext pl ad,
    extension d = Some ext
    /\ (hasSupportMaterial ext = false -> ad = None)
    /\ let surfaces := collectSensitive units_cm cfg d [] (axes ext) in
       let t := convertTransform units_cm (worldTransformation d) in
       (exists lg lg',
           region_protoLayer units_cm ProtoLayer_ctor r d ext surfaces t lg
           = (Returned pl, lg')) /\
       let assembled :=
         match r with
         | Central =>
             cylinderLayer (layerCreator cfg) surfaces (bTypePhi cfg)
               (bTypeZ cfg) pl t ad
         | _ =>
             discLayer (layerCreator cfg) surfaces (bTypeR cfg)
               (bTypePhi cfg) pl t ad
         end in
       List.length surfaces = sensitive_count d
       /\ l = Layer_setAssociatedMaterial assembled (l_material l).

(** How the layer [l] of the element [d] is put together, by the
    sensitivity of [d]. *)
Definition layer_built_for (units_cm : Q)
  (ProtoLayer_ctor : list Surface -> ProtoLayer) (default_isDisc : bool)
  (default_axes : string) (r : Region) (cfg : Config) (d : DetElement)
  (l : Layer) : Prop :=
  if isSensitive d
  then own_surface_layer units_cm default_isDisc default_axes r cfg d l
  else delegated_layer units_cm ProtoLayer_ctor r cfg d l.

(** A sensitive tube that holds a sensitive module of its own. *)
Definition sensitive_filled_element : DetElement :=
  sample_element (Some sample_tube) iron true plain_extension
    [("module", sample_module)].



(** The two axes of the material binning of a cylinder layer with proto
    layer [pl]: a closed phi axis over the full circle, and an open z axis
    on the layer transform whose lower edge is [(maxZ - minZ) / 2] and
    whose upper edge is [(minZ - maxZ) / 2]. *)
Definition cylinder_material_binning (ext : IActsExtension)
  (pl : ProtoLayer) (t : Transform3D) (bu : BinUtility) : Prop :=
  exists z,
    bu = [mkBinningData (fst (materialBins ext)) (- M_PI) M_PI closed binPhi
            None; z]
    /\ bd_bins z = snd (materialBins ext)
    /\ bd_option z = open
    /\ bd_value z = binZ
    /\ bd_transform z = Some t
    /\ bd_min z == (maxZ pl - minZ pl) / 2
    /\ bd_max z == (minZ pl - maxZ pl) / 2.

(** Two configurations that differ at most in the node lists of the
    regions other than [r]. *)
Definition same_inputs_for (r : Region) (cfg cfg' : Config) : Prop :=
  region_nodes r cfg = region_nodes r cfg'
  /\ bTypeR cfg = bTypeR cfg'
  /\ bTypePhi cfg = bTypePhi cfg'
  /\ bTypeZ cfg = bTypeZ cfg'
  /\ layerCreator cfg = layerCreator cfg'
  /\ buildDigitizationModules cfg = buildDigitizationModules cfg'.

(* ===================================================================== *)
(** * Part V: properties *)
(* ===================================================================== *)

(** ** [any_of] *)

Lemma any_of_existsb (values : list bool) :
  MPL.any_of values = existsb (fun b => b) values.
Proof.
  induction values as [| [|] others IH]; simpl; auto.
Qed.

(** C10. For every finite list of booleans, [any_of_v] is [true] exactly
    when at least one element of the list is [true]; on the empty list it
    is [false]. *)
Theorem any_of_v_true_iff_some_true :
  (forall values : list bool,
      MPL.any_of_v values = true <-> In true values)
  /\ MPL.any_of_v [] = false.
Proof.
  split; [| reflexivity].
  intros values. unfold MPL.any_of_v.
  induction values as [| b others IH]; simpl.
  - split; [discriminate | tauto].
  - destruct b.
    + split; auto.
    + rewrite IH. split; [auto | intros [H | H]; [discriminate | exact H]].
Qed.

(** ** The recursive collector *)

Section Collector.

Variable units_cm : Q.
Variable cfg : Config.
Variable axes_ : string.

Let collect := collectSensitive units_cm cfg.
Let surface_of (e : DetElement) : Surface :=
  createSensitiveSurface units_cm cfg e false axes_.

Lemma collectSensitive_children (d : DetElement) (surfaces : list Surface) :
  collect d surfaces axes_
  = fold_left (collect_child units_cm cfg axes_) (children d) surfaces.
Proof.
  destruct d as [n w s m b e cs].
  destruct cs as [| c cs]; [reflexivity |].
  unfold collect_child, collect. simpl.
  match goal with |- _ = fold_left _ cs ?acc => generalize acc end.
  induction cs as [| x l IH]; intros acc; simpl; [reflexivity |].
  apply IH.
Qed.

Lemma descendants_children (d : DetElement) :
  descendants d
  = flat_map (fun c => snd c :: descendants (snd c)) (children d).
Proof. destruct d; reflexivity. Qed.

Lemma sensitive_count_children (d : DetElement) :
  sensitive_count d
  = list_sum
      (map (fun c => ((if isSensitive (snd c) then 1 else 0)
                      + sensitive_count (snd c))%nat)
           (children d)).
Proof. destruct d; reflexivity. Qed.

Lemma collectSensitive_appends (d : DetElement) :
  forall surfaces,
    collect d surfaces axes_
    = (surfaces ++ map surface_of (filter isSensitive (descendants d)))%list.
Proof.
  induction d as [n w s m b e cs IH] using DetElement_nested_ind.
  intros surfaces.
  rewrite collectSensitive_children, descendants_children. simpl children.
  revert surfaces.
  induction IH as [| c cs Hc _ IHcs]; intros surfaces; simpl.
  - now rewrite app_nil_r.
  - rewrite IHcs. unfold collect_child. rewrite Hc.
    destruct (isSensitive (snd c)); unfold push_back; simpl;
      rewrite filter_app, map_app, <- !app_assoc; reflexivity.
Qed.

Lemma sensitive_count_descendants (d : DetElement) :
  sensitive_count d = List.length (filter isSensitive (descendants d)).
Proof.
  induction d as [n w s m b e cs IH] using DetElement_nested_ind.
  rewrite sensitive_count_children, descendants_children. simpl children.
  induction IH as [| c cs Hc _ IHcs]; simpl; [reflexivity |].
  rewrite IHcs, Hc.
  destruct (isSensitive (snd c)); simpl;
    rewrite filter_app, length_app; lia.
Qed.

End Collector.

(** C8. For every element, the collector appends one surface per sensitive
    strict descendant (at any depth, whatever the number of non-sensitive
    elements), in depth-first order with the children in their native
    order and without stopping at sensitive elements; so it returns exactly
    [sensitive_count] surfaces when started on an empty vector, and an
    element without children contributes nothing. *)
Theorem collectSensitive_exactly_sensitive_descendants :
  forall (units_cm : Q) (cfg : Config) (axes_ : string) (d : DetElement),
    (forall surfaces,
        collectSensitive units_cm cfg d surfaces axes_
        = (surfaces ++
           map (fun e => createSensitiveSurface units_cm cfg e false axes_)
               (filter isSensitive (descendants d)))%list)
    /\ List.length (collectSensitive units_cm cfg d [] axes_)
       = sensitive_count d
    /\ (forall n w s m b e surfaces,
           collectSensitive units_cm cfg (mkDetElement n w s m b e [])
             surfaces axes_ = surfaces).
Proof.
  intros units_cm cfg axes_ d. split; [| split].
  - apply collectSensitive_appends.
  - rewrite collectSensitive_appends. simpl.
    rewrite length_map. symmetry. apply sensitive_count_descendants.
  - reflexivity.
Qed.

(** ** The longitudinal extent of a disc layer *)

Lemma swap_ordered (lo hi : Q) :
  ordered_by_swap lo hi (if Qlt_le_dec hi lo then (hi, lo) else (lo, hi)).
Proof.
  unfold ordered_by_swap.
  destruct (Qlt_le_dec hi lo) as [Hlt | Hle]; simpl.
  - split; [lra | split; [reflexivity | split]].
    + intros Hn. exfalso. apply Hn, Hlt.
    + split; [intros _; exact Hlt |].
      intros _ Heq. injection Heq as E1 E2. rewrite E1 in Hlt. lra.
  - split; [exact Hle | split; [intros Hlt; lra | split]].
    + reflexivity.
    + split; [intros Hn; exfalso; apply Hn; reflexivity | intros Hlt; lra].
Qed.

(** C5. In both disc pipelines the longitudinal extent derived from the
    projected axis of the tube is ordered, and it is the raw pair swapped
    exactly when the raw [zMin] is strictly greater than the raw [zMax]. *)
Theorem disc_longitudinal_extent_ordered :
  forall (units_cm : Q) (transform : Transform3D) (tube : TubeSeg),
    ordered_by_swap (raw_zMin units_cm transform tube)
                    (raw_zMax units_cm transform tube)
                    (extent_z (negativeLayers_tubeExtent units_cm transform tube))
    /\ ordered_by_swap (raw_zMin units_cm transform tube)
                    (raw_zMax units_cm transform tube)
                    (extent_z (positiveLayers_tubeExtent units_cm transform tube)).
Proof.
  intros units_cm transform tube.
  pose proof (swap_ordered (raw_zMin units_cm transform tube)
                           (raw_zMax units_cm transform tube)) as H.
  unfold negativeLayers_tubeExtent, positiveLayers_tubeExtent, extent_z.
  fold (raw_zMin units_cm transform tube) (raw_zMax units_cm transform tube).
  destruct (Qlt_le_dec (raw_zMax units_cm transform tube)
                       (raw_zMin units_cm transform tube)); split; exact H.
Qed.

(** ** The proto layer *)

Ltac run_exec :=
  unfold bind, ret, throw, deref, ACTS_ERROR, ACTS_VERBOSE; simpl.

Section ProtoLayerFacts.

Variable units_cm : Q.
Variable ctor : list Surface -> ProtoLayer.
Variable d : DetElement.
Variable ext : IActsExtension.
Variable surfaces : list Surface.
Variable lg : Log.

Lemma central_protoLayer_envelope (geoShape : option TGeoShape) :
  buildEnvelope ext = true ->
  centralLayers_protoLayer units_cm ctor d ext surfaces geoShape lg
  = (Returned
       (set_envZ
          (set_envR (ctor surfaces) (envelopeR ext, envelopeR ext))
          (envelopeZ ext, envelopeZ ext)),
     lg).
Proof.
  intros H. unfold centralLayers_protoLayer. rewrite H. reflexivity.
Qed.

Lemma negative_protoLayer_envelope (t : Transform3D)
  (geoShape : option TGeoShape) :
  buildEnvelope ext = true ->
  negativeLayers_protoLayer units_cm ctor d ext surfaces t geoShape lg
  = (Returned
       (set_envZ
          (set_envR (ctor surfaces) (envelopeR ext, envelopeR ext))
          (envelopeZ ext, envelopeZ ext)),
     lg).
Proof.
  intros H. unfold negativeLayers_protoLayer. rewrite H. reflexivity.
Qed.

Lemma positive_protoLayer_envelope (t : Transform3D)
  (geoShape : option TGeoShape) :
  buildEnvelope ext = true ->
  positiveLayers_protoLayer units_cm ctor d ext surfaces t geoShape lg
  = (Returned
       (set_envZ
          (set_envR (ctor surfaces) (envelopeR ext, envelopeR ext))
          (envelopeZ ext, envelopeZ ext)),
     lg).
Proof.
  intros H. unfold positiveLayers_protoLayer. rewrite H. reflexivity.
Qed.

Lemma explicit_envelope_set :
  explicit_envelope (ctor surfaces)
    (set_envZ (set_envR (ctor surfaces) (envelopeR ext, envelopeR ext))
       (envelopeZ ext, envelopeZ ext))
    (envelopeR ext) (envelopeZ ext).
Proof. unfold explicit_envelope. simpl. tauto. Qed.

End ProtoLayerFacts.

(** C6 (as stated) fails: with an envelope of 1 in r and 2 in z the proto
    layer gets envR = (1, 1) and envZ = (2, 2), which differ. *)
Lemma explicit_envelope_single_margin_fails :
  ~ explicit_envelope_single_margin.
Proof.
  intros claim.
  destruct (claim 10 sample_ProtoLayer_ctor
              (sample_element (Some sample_tube) vacuum false
                 envelope_extension [])
              envelope_extension [] (Some sample_tube) [] eq_refl)
    as (pl & margin & Hrun & Heq & _).
  rewrite central_protoLayer_envelope in Hrun by reflexivity.
  injection Hrun as Hpl. subst pl. simpl in Heq. discriminate Heq.
Qed.

(** C6 (amended). For every node whose extension signals an explicit
    envelope, in each of the three pipelines and whatever the shape and the
    collected surfaces, the proto layer is computed without error, keeps
    the extent measured on the collected surfaces, and gets the paddings
    envR = (envelopeR, envelopeR) and envZ = (envelopeZ, envelopeZ) from
    the two configured margins. *)
Theorem explicit_envelope_sets_both_margins :
  forall (units_cm : Q) (ctor : list Surface -> ProtoLayer)
         (d : DetElement) (ext : IActsExtension) (surfaces : list Surface)
         (t : Transform3D) (geoShape : option TGeoShape) (lg : Log),
    buildEnvelope ext = true ->
    (exists pl,
        negativeLayers_protoLayer units_cm ctor d ext surfaces t geoShape lg
        = (Returned pl, lg)
        /\ explicit_envelope (ctor surfaces) pl
             (envelopeR ext) (envelopeZ ext))
    /\ (exists pl,
           centralLayers_protoLayer units_cm ctor d ext surfaces geoShape lg
           = (Returned pl, lg)
           /\ explicit_envelope (ctor surfaces) pl
                (envelopeR ext) (envelopeZ ext))
    /\ (exists pl,
           positiveLayers_protoLayer units_cm ctor d ext surfaces t geoShape
             lg
           = (Returned pl, lg)
           /\ explicit_envelope (ctor surfaces) pl
                (envelopeR ext) (envelopeZ ext)).
Proof.
  intros units_cm ctor d ext surfaces t geoShape lg H.
  split; [| split]; eexists; split;
    first [ apply negative_protoLayer_envelope
          | apply central_protoLayer_envelope
          | apply positive_protoLayer_envelope
          | apply explicit_envelope_set ]; exact H.
Qed.

(** The amended C6 at a node with an envelope of 1 in r and 2 in z, a
    sensitive surface list of one element, and no shape at all. *)
Lemma explicit_envelope_sets_both_margins_witness :
  exists pl,
    centralLayers_protoLayer 10 sample_ProtoLayer_ctor
      (sample_element None vacuum false envelope_extension [])
      envelope_extension
      [OfDisc (new_DiscSurface sample_transform 12 18)] None []
    = (Returned pl, [])
    /\ explicit_envelope
         (sample_ProtoLayer_ctor
            [OfDisc (new_DiscSurface sample_transform 12 18)])
         pl 1 2.
Proof.
  exact (proj1 (proj2
    (explicit_envelope_sets_both_margins 10 sample_ProtoLayer_ctor
       (sample_element None vacuum false envelope_extension [])
       envelope_extension
       [OfDisc (new_DiscSurface sample_transform 12 18)]
       sample_transform None [] eq_refl))).
Defined.

Section TubeSegmentFacts.

Variable units_cm : Q.
Variable ctor : list Surface -> ProtoLayer.
Variable d : DetElement.
Variable ext : IActsExtension.
Variable lg : Log.
Variables rmin rmax dz phi1 phi2 : Q.

Hypothesis no_envelope : buildEnvelope ext = false.

Let tube : TubeSeg := mkTubeSeg rmin rmax dz.
Let geoShape : option TGeoShape := Some (TGeoTubeSeg rmin rmax dz phi1 phi2).

Lemma central_protoLayer_tube (surfaces : list Surface) :
  exists pl,
    centralLayers_protoLayer units_cm ctor d ext surfaces geoShape lg
    = (Returned pl, lg)
    /\ match surfaces with
       | [] =>
           adopts_shape_extent pl (rmin * units_cm) (rmax * units_cm)
             (- (dz * units_cm)) (dz * units_cm)
       | _ :: _ =>
           pads_surface_extent (ctor surfaces) pl
             (rmin * units_cm) (rmax * units_cm)
             (- (dz * units_cm)) (dz * units_cm)
       end.
Proof.
  unfold centralLayers_protoLayer, geoShape. rewrite no_envelope.
  run_exec. destruct surfaces as [| s0 rest]; eexists; split;
    try reflexivity;
    unfold adopts_shape_extent, pads_surface_extent; simpl; tauto.
Qed.

Lemma negative_protoLayer_tube (t : Transform3D) (surfaces : list Surface) :
  exists pl zMin zMax,
    negativeLayers_protoLayer units_cm ctor d ext surfaces t geoShape lg
    = (Returned pl, lg)
    /\ ordered_by_swap (raw_zMin units_cm t tube) (raw_zMax units_cm t tube)
         (zMin, zMax)
    /\ match surfaces with
       | [] =>
           adopts_shape_extent pl (rmin * units_cm) (rmax * units_cm)
             zMin zMax
       | _ :: _ =>
           pads_surface_extent (ctor surfaces) pl
             (rmin * units_cm) (rmax * units_cm) zMin zMax
       end.
Proof.
  pose proof (swap_ordered (raw_zMin units_cm t tube)
                           (raw_zMax units_cm t tube)) as Hord.
  unfold negativeLayers_protoLayer, geoShape. rewrite no_envelope.
  run_exec. unfold negativeLayers_tubeExtent.
  fold tube. fold (raw_zMin units_cm t tube) (raw_zMax units_cm t tube).
  destruct (Qlt_le_dec (raw_zMax units_cm t tube) (raw_zMin units_cm t tube));
    destruct surfaces as [| s0 rest]; do 3 eexists;
    (split; [reflexivity | split; [exact Hord |]]);
    unfold adopts_shape_extent, pads_surface_extent; simpl; tauto.
Qed.

Lemma positive_protoLayer_tube (t : Transform3D) (surfaces : list Surface) :
  exists pl zMin zMax,
    positiveLayers_protoLayer units_cm ctor d ext surfaces t geoShape lg
    = (Returned pl, lg)
    /\ ordered_by_swap (raw_zMin units_cm t tube) (raw_zMax units_cm t tube)
         (zMin, zMax)
    /\ match surfaces with
       | [] =>
           adopts_shape_extent pl (rmin * units_cm) (rmax * units_cm)
             zMin zMax
       | _ :: _ =>
           pads_surface_extent (ctor surfaces) pl
             (rmin * units_cm) (rmax * units_cm) zMin zMax
       end.
Proof.
  pose proof (swap_ordered (raw_zMin units_cm t tube)
                           (raw_zMax units_cm t tube)) as Hord.
  unfold positiveLayers_protoLayer, geoShape. rewrite no_envelope.
  run_exec. unfold positiveLayers_tubeExtent.
  fold tube. fold (raw_zMin units_cm t tube) (raw_zMax units_cm t tube).
  destruct (Qlt_le_dec (raw_zMax units_cm t tube) (raw_zMin units_cm t tube));
    destruct surfaces as [| s0 rest]; do 3 eexists;
    (split; [reflexivity | split; [exact Hord |]]);
    unfold adopts_shape_extent, pads_surface_extent; simpl; tauto.
Qed.

End TubeSegmentFacts.

(** C7. For every tube-segment node without explicit envelope, the proto
    layer is computed without error in each pipeline.  With zero collected
    sensitive surfaces its extent is the unit-converted extent of the
    shape (radii times the unit, and [-dz], [dz] times the unit in the
    central pipeline or the ordered projection of the two tube ends in the
    disc pipelines) and both paddings are (0, 0); otherwise the extent
    measured on the surfaces is kept and every padding component is the
    absolute difference between shape extent and surface extent. *)
Theorem tube_segment_proto_layer :
  forall (units_cm : Q) (ctor : list Surface -> ProtoLayer) (cfg : Config)
         (d : DetElement) (ext : IActsExtension)
         (rmin rmax dz phi1 phi2 : Q) (lg : Log),
    buildEnvelope ext = false ->
    shape d = Some (TGeoTubeSeg rmin rmax dz phi1 phi2) ->
    let surfaces := collectSensitive units_cm cfg d [] (axes ext) in
    let t := convertTransform units_cm (worldTransformation d) in
    let tube := mkTubeSeg rmin rmax dz in
    (exists pl,
        centralLayers_protoLayer units_cm ctor d ext surfaces (shape d) lg
        = (Returned pl, lg)
        /\ match surfaces with
           | [] =>
               adopts_shape_extent pl (rmin * units_cm) (rmax * units_cm)
                 (- (dz * units_cm)) (dz * units_cm)
           | _ :: _ =>
               pads_surface_extent (ctor surfaces) pl
                 (rmin * units_cm) (rmax * units_cm)
                 (- (dz * units_cm)) (dz * units_cm)
           end)
    /\ (exists pl zMin zMax,
           negativeLayers_protoLayer units_cm ctor d ext surfaces t (shape d)
             lg
           = (Returned pl, lg)
           /\ ordered_by_swap (raw_zMin units_cm t tube)
                (raw_zMax units_cm t tube) (zMin, zMax)
           /\ match surfaces with
              | [] =>
                  adopts_shape_extent pl (rmin * units_cm) (rmax * units_cm)
                    zMin zMax
              | _ :: _ =>
                  pads_surface_extent (ctor surfaces) pl
                    (rmin * units_cm) (rmax * units_cm) zMin zMax
              end)
    /\ (exists pl zMin zMax,
           positiveLayers_protoLayer units_cm ctor d ext surfaces t (shape d)
             lg
           = (Returned pl, lg)
           /\ ordered_by_swap (raw_zMin units_cm t tube)
                (raw_zMax units_cm t tube) (zMin, zMax)
           /\ match surfaces with
              | [] =>
                  adopts_shape_extent pl (rmin * units_cm) (rmax * units_cm)
                    zMin zMax
              | _ :: _ =>
                  pads_surface_extent (ctor surfaces) pl
                    (rmin * units_cm) (rmax * units_cm) zMin zMax
              end).
Proof.
  intros units_cm ctor cfg d ext rmin rmax dz phi1 phi2 lg Henv Hshape.
  intros surfaces t tube. rewrite Hshape. split; [| split].
  - apply central_protoLayer_tube, Henv.
  - apply negative_protoLayer_tube, Henv.
  - apply positive_protoLayer_tube, Henv.
Qed.

(** C7 at the central tube of radii 10 and 20 and half length 50 (in mm):
    with no sensitive descendant the proto layer is exactly that extent
    with zero padding; with one sensitive module the measured extent
    (12, 18, -40, 40) is kept and padded by (2, 2) and (10, 10). *)
Lemma tube_segment_proto_layer_witness :
  (exists pl,
      centralLayers_protoLayer 10 sample_ProtoLayer_ctor empty_tube_element
        plain_extension [] (Some sample_tube) []
      = (Returned pl, [])
      /\ adopts_shape_extent pl 10 20 (-50) 50)
  /\ (exists pl,
         centralLayers_protoLayer 10 sample_ProtoLayer_ctor
           filled_tube_element plain_extension
           (collectSensitive 10 (sample_config [] [filled_tube_element] [])
              filled_tube_element [] "XYZ")
           (Some sample_tube) []
         = (Returned pl, [])
         /\ pads_surface_extent (mkProtoLayer 12 18 (-40) 40 (0, 0) (0, 0))
              pl 10 20 (-50) 50).
Proof.
  split.
  - exact (proj1
      (tube_segment_proto_layer 10 sample_ProtoLayer_ctor
         (sample_config [] [empty_tube_element] [])
         empty_tube_element plain_extension 1 2 5 0 360 []
         eq_refl eq_refl)).
  - exact (proj1
      (tube_segment_proto_layer 10 sample_ProtoLayer_ctor
         (sample_config [] [filled_tube_element] [])
         filled_tube_element plain_extension 1 2 5 0 360 []
         eq_refl eq_refl)).
Defined.

(** ** The approach descriptor *)

Section ApproachDescriptorFacts.

Variable ext : IActsExtension.
Variable pl : ProtoLayer.
Variable t : Transform3D.
Variable lg : Log.

Hypothesis support : hasSupportMaterial ext = true.

Let pos : LayerMaterialPos := layerMaterialPosition ext.

Lemma negative_approachDescriptor_support :
  exists i c o bu lg',
    negativeLayers_approachDescriptor ext pl t lg
    = (Returned (Some (mkApproachDescriptor [OfDisc i; OfDisc o; OfDisc c])),
       lg')
    /\ proxy_on_selected pos (SurfaceMaterialProxy bu)
         (OfDisc i) (OfDisc c) (OfDisc o)
    /\ List.length (filter has_material [OfDisc i; OfDisc o; OfDisc c])
       = 1%nat.
Proof.
  unfold negativeLayers_approachDescriptor. rewrite support. run_exec.
  match goal with
  | |- context [if ?b then (_, _) else (_, _)] => destruct b
  end;
    unfold pos, proxy_on_selected, has_material;
    destruct (layerMaterialPosition ext); simpl;
    do 5 eexists; (split; [reflexivity | split; [| reflexivity]]);
    simpl; repeat split.
Qed.

Lemma positive_approachDescriptor_support :
  exists i c o bu lg',
    positiveLayers_approachDescriptor ext pl t lg
    = (Returned (Some (mkApproachDescriptor [OfDisc i; OfDisc c; OfDisc o])),
       lg')
    /\ proxy_on_selected pos (SurfaceMaterialProxy bu)
         (OfDisc i) (OfDisc c) (OfDisc o)
    /\ List.length (filter has_material [OfDisc i; OfDisc c; OfDisc o])
       = 1%nat.
Proof.
  unfold positiveLayers_approachDescriptor. rewrite support. run_exec.
  match goal with
  | |- context [if ?b then (_, _) else (_, _)] => destruct b
  end;
    unfold pos, proxy_on_selected, has_material;
    destruct (layerMaterialPosition ext); simpl;
    do 5 eexists; (split; [reflexivity | split; [| reflexivity]]);
    simpl; repeat split.
Qed.

Lemma central_approachDescriptor_support (halfZ : Q) :
  exists i c o bu lg',
    centralLayers_approachDescriptor ext pl t halfZ lg
    = (Returned
         (Some (mkApproachDescriptor
                  [OfCylinder i; OfCylinder c; OfCylinder o])),
       lg')
    /\ proxy_on_selected pos (SurfaceMaterialProxy bu)
         (OfCylinder i) (OfCylinder c) (OfCylinder o)
    /\ List.length
         (filter has_material [OfCylinder i; OfCylinder c; OfCylinder o])
       = 1%nat
    /\ (cs_radius i = minR pl /\ cs_radius o = maxR pl
        /\ cs_radius c = (minR pl + maxR pl) * (1 # 2))
    /\ (cs_halfZ i = halfZ /\ cs_halfZ c = halfZ /\ cs_halfZ o = halfZ)
    /\ (cs_transform i = t /\ cs_transform c = t /\ cs_transform o = t).
Proof.
  unfold centralLayers_approachDescriptor. rewrite support. run_exec.
  unfold pos, proxy_on_selected, has_material.
  destruct (layerMaterialPosition ext); simpl;
    do 5 eexists; (split; [reflexivity |]); simpl; repeat split.
Qed.

End ApproachDescriptorFacts.

(** C3. For every node whose extension requests support material, each
    pipeline builds all three boundary surfaces of its family (discs for
    the disc pipelines, cylinders for the central one) and returns an
    approach descriptor that holds exactly these three; the surface
    selected by the material position carries the material proxy, the
    other two carry no material, so exactly one of the three has
    material. *)
Theorem support_material_three_surfaces_one_proxy :
  forall (ext : IActsExtension) (pl : ProtoLayer) (t : Transform3D)
         (lg : Log),
    hasSupportMaterial ext = true ->
    (exists i c o bu lg',
        negativeLayers_approachDescriptor ext pl t lg
        = (Returned
             (Some (mkApproachDescriptor [OfDisc i; OfDisc o; OfDisc c])),
           lg')
        /\ proxy_on_selected (layerMaterialPosition ext)
             (SurfaceMaterialProxy bu) (OfDisc i) (OfDisc c) (OfDisc o)
        /\ List.length (filter has_material [OfDisc i; OfDisc o; OfDisc c])
           = 1%nat)
    /\ (exists i c o bu lg',
           centralLayers_approachDescriptor ext pl t (centralLayers_halfZ pl)
             lg
           = (Returned
                (Some (mkApproachDescriptor
                         [OfCylinder i; OfCylinder c; OfCylinder o])),
              lg')
           /\ proxy_on_selected (layerMaterialPosition ext)
                (SurfaceMaterialProxy bu)
                (OfCylinder i) (OfCylinder c) (OfCylinder o)
           /\ List.length
                (filter has_material
                   [OfCylinder i; OfCylinder c; OfCylinder o])
              = 1%nat)
    /\ (exists i c o bu lg',
           positiveLayers_approachDescriptor ext pl t lg
           = (Returned
                (Some (mkApproachDescriptor [OfDisc i; OfDisc c; OfDisc o])),
              lg')
           /\ proxy_on_selected (layerMaterialPosition ext)
                (SurfaceMaterialProxy bu) (OfDisc i) (OfDisc c) (OfDisc o)
           /\ List.length (filter has_material [OfDisc i; OfDisc c; OfDisc o])
              = 1%nat).
Proof.
  intros ext pl t lg Hsupport. split; [| split].
  - apply negative_approachDescriptor_support, Hsupport.
  - destruct (central_approachDescriptor_support ext pl t lg Hsupport
                (centralLayers_halfZ pl))
      as (i & c & o & bu & lg' & Hrun & Hproxy & Hone & _).
    exists i, c, o, bu, lg'. auto.
  - apply positive_approachDescriptor_support, Hsupport.
Qed.

(** C3 at a disc layer asking for material on its outer surface. *)
Lemma support_material_three_surfaces_one_proxy_witness :
  exists i c o bu lg',
    negativeLayers_approachDescriptor support_extension
      (mkProtoLayer 10 20 (-50) 50 (0, 0) (0, 0)) sample_transform []
    = (Returned (Some (mkApproachDescriptor [OfDisc i; OfDisc o; OfDisc c])),
       lg')
    /\ proxy_on_selected outer (SurfaceMaterialProxy bu)
         (OfDisc i) (OfDisc c) (OfDisc o)
    /\ List.length (filter has_material [OfDisc i; OfDisc o; OfDisc c])
       = 1%nat.
Proof.
  exact (proj1
    (support_material_three_surfaces_one_proxy support_extension
       (mkProtoLayer 10 20 (-50) 50 (0, 0) (0, 0)) sample_transform []
       eq_refl)).
Defined.

(** C4. In the central pipeline the half length is
    [(minZ - maxZ) * 0.5], the negative of [(maxZ - minZ) * 0.5]; and for
    a layer with support material the three boundary surfaces are
    cylinders on the layer's own transform, of radius [minR], [maxR] and
    the mean radius [(minR + maxR) / 2], all with this half length. *)
Theorem central_half_length_and_concentric_cylinders :
  forall (ext : IActsExtension) (pl : ProtoLayer) (t : Transform3D)
         (lg : Log),
    hasSupportMaterial ext = true ->
    let halfZ := centralLayers_halfZ pl in
    halfZ = (minZ pl - maxZ pl) * (1 # 2)
    /\ halfZ == - ((maxZ pl - minZ pl) * (1 # 2))
    /\ exists i c o lg',
         centralLayers_approachDescriptor ext pl t halfZ lg
         = (Returned
              (Some (mkApproachDescriptor
                       [OfCylinder i; OfCylinder c; OfCylinder o])),
            lg')
         /\ (cs_radius i = minR pl /\ cs_radius o = maxR pl
             /\ cs_radius c == (minR pl + maxR pl) / 2)
         /\ (cs_halfZ i = halfZ /\ cs_halfZ c = halfZ /\ cs_halfZ o = halfZ)
         /\ (cs_transform i = t /\ cs_transform c = t /\ cs_transform o = t).
Proof.
  intros ext pl t lg Hsupport halfZ. split; [reflexivity | split].
  - unfold halfZ, centralLayers_halfZ. ring.
  - destruct (central_approachDescriptor_support ext pl t lg Hsupport halfZ)
      as (i & c & o & bu & lg' & Hrun & _ & _ & Hr & Hz & Ht).
    exists i, c, o, lg'. destruct Hr as (Hri & Hro & Hrc).
    repeat split; try tauto.
    rewrite Hrc. field.
Qed.

(** C4 at a central layer of radii 10 and 20 between z = -50 and z = 50:
    the half length is -50. *)
Lemma central_half_length_and_concentric_cylinders_witness :
  centralLayers_halfZ (mkProtoLayer 10 20 (-50) 50 (0, 0) (0, 0)) == - (50)
  /\ exists i c o lg',
       centralLayers_approachDescriptor support_extension
         (mkProtoLayer 10 20 (-50) 50 (0, 0) (0, 0)) sample_transform
         (centralLayers_halfZ (mkProtoLayer 10 20 (-50) 50 (0, 0) (0, 0)))
         []
       = (Returned
            (Some (mkApproachDescriptor
                     [OfCylinder i; OfCylinder c; OfCylinder o])),
          lg')
       /\ (cs_radius i = 10 /\ cs_radius o = 20 /\ cs_radius c == (10 + 20) / 2)
       /\ (cs_halfZ i
           = centralLayers_halfZ (mkProtoLayer 10 20 (-50) 50 (0, 0) (0, 0))
           /\ cs_halfZ c
           = centralLayers_halfZ (mkProtoLayer 10 20 (-50) 50 (0, 0) (0, 0))
           /\ cs_halfZ o
           = centralLayers_halfZ (mkProtoLayer 10 20 (-50) 50 (0, 0) (0, 0)))
       /\ (cs_transform i = sample_transform
           /\ cs_transform c = sample_transform
           /\ cs_transform o = sample_transform).
Proof.
  split; [reflexivity |].
  exact (proj2 (proj2
    (central_half_length_and_concentric_cylinders support_extension
       (mkProtoLayer 10 20 (-50) 50 (0, 0) (0, 0)) sample_transform []
       eq_refl))).
Defined.

(** ** The two disc pipelines *)

Lemma bind_ret_r {A} (m : Exec A) (lg : Log) :
  bind m (fun a => ret a) lg = m lg.
Proof.
  unfold bind, ret. destruct (m lg) as [[a | e |] lg']; reflexivity.
Qed.

Lemma bind_ext {A B} (m : Exec A) (k k' : A -> Exec B) (lg : Log) :
  (forall a lg', k a lg' = k' a lg') -> bind m k lg = bind m k' lg.
Proof.
  intros H. unfold bind. destruct (m lg) as [[a | e |] lg']; auto.
Qed.

Lemma for_each_ext {A S} (body body' : S -> A -> Exec S) (xs : list A) :
  (forall s x lg, body s x lg = body' s x lg) ->
  forall s lg, for_each xs s body lg = for_each xs s body' lg.
Proof.
  intros H. induction xs as [| x xs IH]; intros s lg; simpl; [reflexivity |].
  unfold bind. rewrite H.
  destruct (body' s x lg) as [[s' | e |] lg']; auto.
Qed.

Section DiscPipelines.

Variable units_cm : Q.
Variable ctor : list Surface -> ProtoLayer.
Variable default_axes : string.

Lemma negative_protoLayer_factored d ext surfaces t lg :
  negativeLayers_protoLayer units_cm ctor d ext surfaces t (shape d) lg
  = disc_protoLayer units_cm ctor d ext surfaces t lg.
Proof.
  unfold negativeLayers_protoLayer, disc_protoLayer.
  destruct (buildEnvelope ext); [reflexivity |].
  destruct (shape d) as [[dx dy dz | rmin rmax dz | rmin rmax dz p1 p2] |];
    try reflexivity.
  run_exec. unfold negativeLayers_tubeExtent.
  fold (raw_zMin units_cm t (mkTubeSeg rmin rmax dz))
       (raw_zMax units_cm t (mkTubeSeg rmin rmax dz)).
  destruct (Qlt_le_dec _ _); destruct surfaces; reflexivity.
Qed.

Lemma positive_protoLayer_factored d ext surfaces t lg :
  positiveLayers_protoLayer units_cm ctor d ext surfaces t (shape d) lg
  = disc_protoLayer units_cm ctor d ext surfaces t lg.
Proof.
  unfold positiveLayers_protoLayer, disc_protoLayer.
  destruct (buildEnvelope ext); [reflexivity |].
  destruct (shape d) as [[dx dy dz | rmin rmax dz | rmin rmax dz p1 p2] |];
    try reflexivity.
  run_exec. unfold positiveLayers_tubeExtent.
  fold (raw_zMin units_cm t (mkTubeSeg rmin rmax dz))
       (raw_zMax units_cm t (mkTubeSeg rmin rmax dz)).
  destruct (Qlt_le_dec _ _); destruct surfaces; reflexivity.
Qed.

Lemma negative_approachDescriptor_factored ext pl t lg :
  negativeLayers_approachDescriptor ext pl t lg
  = disc_approachDescriptor InnerOuterCentral ext pl t lg.
Proof.
  unfold negativeLayers_approachDescriptor, disc_approachDescriptor.
  destruct (hasSupportMaterial ext); [| reflexivity].
  run_exec. destruct (Qlt_le_dec _ _);
    destruct (layerMaterialPosition ext); reflexivity.
Qed.

Lemma positive_approachDescriptor_factored ext pl t lg :
  positiveLayers_approachDescriptor ext pl t lg
  = disc_approachDescriptor InnerCentralOuter ext pl t lg.
Proof.
  unfold positiveLayers_approachDescriptor, disc_approachDescriptor.
  destruct (hasSupportMaterial ext); [| reflexivity].
  run_exec. destruct (Qlt_le_dec _ _);
    destruct (layerMaterialPosition ext); reflexivity.
Qed.

Lemma negative_layer_factored cfg d surfaces pl t ad :
  Layer_setAssociatedMaterial
    (negativeLayers_createLayer units_cm default_axes cfg d surfaces pl t ad)
    (negativeLayers_surfaceMaterial units_cm d pl)
  = disc_layer units_cm default_axes cfg d surfaces pl t ad.
Proof.
  unfold negativeLayers_createLayer, negativeLayers_surfaceMaterial,
    disc_layer.
  destruct (iequals _ _); destruct (isSensitive d); reflexivity.
Qed.

Lemma positive_layer_factored cfg d surfaces pl t ad :
  Layer_setAssociatedMaterial
    (positiveLayers_createLayer units_cm default_axes cfg d surfaces pl t ad)
    (positiveLayers_surfaceMaterial units_cm d pl)
  = disc_layer units_cm default_axes cfg d surfaces pl t ad.
Proof.
  unfold positiveLayers_createLayer, positiveLayers_surfaceMaterial,
    disc_layer.
  destruct (iequals _ _); destruct (isSensitive d); reflexivity.
Qed.

Lemma negative_body_factored cfg layers d lg :
  negativeLayers_body units_cm ctor default_axes cfg layers d lg
  = disc_body units_cm ctor default_axes InnerOuterCentral cfg layers d lg.
Proof.
  unfold negativeLayers_body, disc_body.
  apply bind_ext. intros ext lg1.
  unfold bind at 1 3. rewrite negative_protoLayer_factored.
  destruct (disc_protoLayer _ _ _ _ _ _ _) as [[pl | e |] lg2];
    try reflexivity.
  unfold bind. rewrite negative_approachDescriptor_factored.
  destruct (disc_approachDescriptor _ _ _ _ _) as [[ad | e |] lg3];
    try reflexivity.
  unfold ret. rewrite negative_layer_factored. reflexivity.
Qed.

Lemma positive_body_factored cfg layers d lg :
  positiveLayers_body units_cm ctor default_axes cfg layers d lg
  = disc_body units_cm ctor default_axes InnerCentralOuter cfg layers d lg.
Proof.
  unfold positiveLayers_body, disc_body.
  apply bind_ext. intros ext lg1.
  unfold bind at 1 3. rewrite positive_protoLayer_factored.
  destruct (disc_protoLayer _ _ _ _ _ _ _) as [[pl | e |] lg2];
    try reflexivity.
  unfold bind. rewrite positive_approachDescriptor_factored.
  destruct (disc_approachDescriptor _ _ _ _ _) as [[ad | e |] lg3];
    try reflexivity.
  unfold ret. rewrite positive_layer_factored. reflexivity.
Qed.

End DiscPipelines.

(** C9. For a node with support material the negative pipeline bundles
    the approach surfaces as (inner, outer, central) and the positive one
    as (inner, central, outer), the three surfaces being the same; without
    support material both return no descriptor.  Apart from this order
    (and the name of the region in the two progress messages) the two
    pipelines are the same function of the configuration and the node
    list: both are instances of the factored pipeline [discLayers]. *)
Theorem disc_pipelines_differ_only_in_bundle_order :
  forall (units_cm : Q) (ctor : list Surface -> ProtoLayer)
         (default_axes : string) (cfg : Config) (ext : IActsExtension)
         (pl : ProtoLayer) (t : Transform3D) (lg : Log),
    (if hasSupportMaterial ext then
       exists i c o bu lg',
         negativeLayers_approachDescriptor ext pl t lg
         = (Returned
              (Some (mkApproachDescriptor [OfDisc i; OfDisc o; OfDisc c])),
            lg')
         /\ positiveLayers_approachDescriptor ext pl t lg
            = (Returned
                 (Some (mkApproachDescriptor [OfDisc i; OfDisc c; OfDisc o])),
               lg')
         /\ ds_transform c = t
         /\ vz (translation (ds_transform i))
            <= vz (translation (ds_transform o))
         /\ proxy_on_selected (layerMaterialPosition ext)
              (SurfaceMaterialProxy bu) (OfDisc i) (OfDisc c) (OfDisc o)
     else
       negativeLayers_approachDescriptor ext pl t lg = (Returned None, lg)
       /\ positiveLayers_approachDescriptor ext pl t lg = (Returned None, lg))
    /\ negativeLayers units_cm ctor default_axes cfg lg
       = discLayers units_cm ctor default_axes InnerOuterCentral
           "[L] No layers handed over for negative volume."
           "[L] Received layers for negative volume -> creating disc layers"
           cfg (negativeLayers_cfg cfg) lg
    /\ positiveLayers units_cm ctor default_axes cfg lg
       = discLayers units_cm ctor default_axes InnerCentralOuter
           "[L] No layers handed over for positive volume!"
           "[L] Received layers for positive volume -> creating disc layers"
           cfg (positiveLayers_cfg cfg) lg.
Proof.
  intros units_cm ctor default_axes cfg ext pl t lg. split; [| split].
  - rewrite negative_approachDescriptor_factored,
      positive_approachDescriptor_factored.
    unfold disc_approachDescriptor.
    destruct (hasSupportMaterial ext); [| split; reflexivity].
    run_exec. unfold proxy_on_selected.
    destruct (Qlt_le_dec _ _) as [Hlt | Hle]; simpl in *;
      do 5 eexists;
      (split; [reflexivity | split; [reflexivity | split; [reflexivity |]]]);
      simpl; (split; [lra | repeat split]).
  - unfold negativeLayers, discLayers.
    destruct (negativeLayers_cfg cfg) as [| d nodes]; [reflexivity |].
    apply bind_ext. intros [] lg1. rewrite bind_ret_r.
    apply for_each_ext. intros s x lg2. apply negative_body_factored.
  - unfold positiveLayers, discLayers.
    destruct (positiveLayers_cfg cfg) as [| d nodes]; [reflexivity |].
    apply bind_ext. intros [] lg1. rewrite bind_ret_r.
    apply for_each_ext. intros s x lg2. apply positive_body_factored.
Qed.

(** ** The bulk material *)

Example iequals_vacuum_any_casing :
  iequals "Vacuum" "vacuum" = true
  /\ iequals "VACUUM" "vacuum" = true
  /\ iequals "vAcUuM" "vacuum" = true
  /\ iequals "Vacuum2" "vacuum" = false
  /\ iequals "Iron" "vacuum" = false.
Proof. repeat split. Qed.

Lemma iequals_refl (a : string) : iequals a a = true.
Proof.
  induction a as [| x a IH]; simpl; [reflexivity |].
  rewrite Ascii.eqb_refl. exact IH.
Qed.

Section BulkMaterial.

Variable units_cm : Q.
Variable d : DetElement.
Variable pl : ProtoLayer.

Lemma bulk_material_vacuum :
  iequals (dd_name (volMaterial d)) "vacuum" = true ->
  negativeLayers_surfaceMaterial units_cm d pl = None
  /\ centralLayers_surfaceMaterial units_cm d pl = None
  /\ positiveLayers_surfaceMaterial units_cm d pl = None.
Proof.
  intros H.
  unfold negativeLayers_surfaceMaterial, centralLayers_surfaceMaterial,
    positiveLayers_surfaceMaterial.
  rewrite H. simpl. auto.
Qed.

(** In all three pipelines the thickness of the bulk material is the
    radial span of the proto layer. *)
Lemma bulk_material_other :
  iequals (dd_name (volMaterial d)) "vacuum" = false ->
  exists m,
    thickness m = Qabs (maxR pl - minR pl)
    /\ negativeLayers_surfaceMaterial units_cm d pl
       = Some (HomogeneousSurfaceMaterial m)
    /\ centralLayers_surfaceMaterial units_cm d pl
       = Some (HomogeneousSurfaceMaterial m)
    /\ positiveLayers_surfaceMaterial units_cm d pl
       = Some (HomogeneousSurfaceMaterial m).
Proof.
  intros H.
  unfold negativeLayers_surfaceMaterial, centralLayers_surfaceMaterial,
    positiveLayers_surfaceMaterial.
  rewrite H. simpl. eexists.
  split; [| split; [reflexivity | split; reflexivity]]. reflexivity.
Qed.

End BulkMaterial.

(** In the central pipeline the bulk material of a sensitive layer has the
    thickness of the layer, which is the radial span. *)
Lemma central_bulk_material_matches_layer
  (units_cm : Q) (default_isDisc : bool) (default_axes : string)
  (cfg : Config) (d : DetElement) (surfaces : list Surface)
  (pl : ProtoLayer) (t : Transform3D) (halfZ : Q)
  (ad : option ApproachDescriptor) :
  isSensitive d = true ->
  iequals (dd_name (volMaterial d)) "vacuum" = false ->
  exists m,
    centralLayers_surfaceMaterial units_cm d pl
    = Some (HomogeneousSurfaceMaterial m)
    /\ thickness m
       = l_thickness
           (centralLayers_createLayer units_cm default_isDisc default_axes
              cfg d surfaces pl t halfZ ad).
Proof.
  intros Hs Hv.
  unfold centralLayers_surfaceMaterial, centralLayers_createLayer.
  rewrite Hs, Hv. simpl. eexists. split; reflexivity.
Qed.

(** C2. A sensitive disc layer of iron with radii 10 and 20 between
    z = -50 and z = 50: in both disc pipelines the layer has thickness 100,
    its longitudinal span, but its bulk material has thickness 10, its
    radial span. *)
Theorem disc_bulk_material_thickness_is_radial_span :
  (exists layer m,
      negativeLayers 10 sample_ProtoLayer_ctor "XYZ"
        (sample_config [iron_disc_element] [] []) []
      = (Returned [layer],
         [mkLogEntry VERBOSE
            "[L] Received layers for negative volume -> creating disc layers"])
      /\ l_bounds layer = RadialBounds 10 20
      /\ l_thickness layer = 100
      /\ l_material layer = Some (HomogeneousSurfaceMaterial m)
      /\ thickness m = 10)
  /\ (exists layer m,
         positiveLayers 10 sample_ProtoLayer_ctor "XYZ"
           (sample_config [] [] [iron_disc_element]) []
         = (Returned [layer],
            [mkLogEntry VERBOSE
               "[L] Received layers for positive volume -> creating disc layers"])
         /\ l_bounds layer = RadialBounds 10 20
         /\ l_thickness layer = 100
         /\ l_material layer = Some (HomogeneousSurfaceMaterial m)
         /\ thickness m = 10).
Proof.
  split; do 2 eexists; (split; [vm_compute; reflexivity |]);
    repeat split.
Qed.

(** ** Shapes that are not tube segments *)

Lemma for_each_not_returned {A S} (body : S -> A -> Exec S) (xs : list A)
  (x : A) :
  In x xs ->
  (forall s lg, returned (body s x lg) = None) ->
  forall s lg, returned (for_each xs s body lg) = None.
Proof.
  intros Hin Hx. induction xs as [| y xs IH]; [destruct Hin |].
  intros s lg. simpl. unfold bind.
  destruct Hin as [-> | Hin].
  - specialize (Hx s lg). unfold returned in *.
    destruct (body s x lg) as [[s' | e |] lg']; simpl in *;
      [discriminate | reflexivity | reflexivity].
  - destruct (body s y lg) as [[s' | e |] lg']; auto.
Qed.

(** An element with neither envelope nor shape makes the central pipeline
    throw; whatever its position in the list, no layer vector is
    returned. *)
Lemma central_missing_shape_throws
  (units_cm : Q) (ctor : list Surface -> ProtoLayer) (default_isDisc : bool)
  (default_axes : string) (cfg : Config) (d : DetElement)
  (ext : IActsExtension) :
  In d (centralLayers_cfg cfg) ->
  extension d = Some ext ->
  buildEnvelope ext = false ->
  shape d = None ->
  (forall layers lg,
      centralLayers_body units_cm ctor default_isDisc default_axes cfg
        layers d lg
      = (Thrown (logic_error (no_shape_message d)), lg))
  /\ forall lg,
       returned (centralLayers units_cm ctor default_isDisc default_axes
                   cfg lg) = None.
Proof.
  intros Hin Hext Henv Hshape.
  assert (Hbody : forall layers lg,
             centralLayers_body units_cm ctor default_isDisc default_axes
               cfg layers d lg
             = (Thrown (logic_error (no_shape_message d)), lg)).
  { intros layers lg. unfold centralLayers_body, get_extension.
    rewrite Hext, Hshape. unfold bind at 1. unfold ret at 1.
    cbv beta iota. unfold bind at 1. unfold centralLayers_protoLayer.
    rewrite Henv. reflexivity. }
  split; [exact Hbody |].
  intros lg. unfold centralLayers.
  destruct (centralLayers_cfg cfg) as [| d0 nodes] eqn:E; [destruct Hin |].
  unfold bind at 1. unfold ACTS_VERBOSE. cbv beta iota.
  rewrite bind_ret_r.
  apply for_each_not_returned with (x := d); [exact Hin |].
  intros s lg'. rewrite Hbody. reflexivity.
Qed.

(** C1. A central (or disc) layer element whose shape is a box and which
    has no explicit envelope: the pipeline logs the error and then
    dereferences the null result of the cast; it neither throws nor
    returns.  The sibling case of an element with no shape at all does
    throw a [std::logic_error]. *)
Theorem wrong_shape_is_logged_then_dereferenced :
  centralLayers 10 sample_ProtoLayer_ctor false "XYZ"
    (sample_config [] [box_element] []) []
  = (NullDereference,
     [mkLogEntry VERBOSE
        "[L] Received layers for central volume -> creating cylindrical layers";
      mkLogEntry ERROR
        "[L] Cylinder layer has wrong shape - needs to be TGeoTubeSeg!"])
  /\ negativeLayers 10 sample_ProtoLayer_ctor "XYZ"
       (sample_config [box_element] [] []) []
     = (NullDereference,
        [mkLogEntry VERBOSE
           "[L] Received layers for negative volume -> creating disc layers";
         mkLogEntry ERROR
           "[L] Disc layer has wrong shape - needs to be TGeoTubeSeg!"])
  /\ positiveLayers 10 sample_ProtoLayer_ctor "XYZ"
       (sample_config [] [] [box_element]) []
     = (NullDereference,
        [mkLogEntry VERBOSE
           "[L] Received layers for positive volume -> creating disc layers";
         mkLogEntry ERROR
           "[L] Disc layer has wrong shape - needs to be TGeoTubeSeg!"])
  /\ centralLayers 10 sample_ProtoLayer_ctor false "XYZ"
       (sample_config [] [shapeless_element] []) []
     = (Thrown (logic_error (no_shape_message shapeless_element)),
        [mkLogEntry VERBOSE
           "[L] Received layers for central volume -> creating cylindrical layers"]).
Proof.
  repeat split.
Qed.

(* ===================================================================== *)
(** * Part VI: further properties *)
(* ===================================================================== *)

(** ** [any_of] on composed packs *)

(** X1. The value of [any_of_v] on the concatenation of two packs is the
    disjunction of its values on the two packs. *)
Theorem any_of_v_app :
  forall a b : list bool,
    MPL.any_of_v (a ++ b)%list = MPL.any_of_v a || MPL.any_of_v b.
Proof.
  intros a b. unfold MPL.any_of_v.
  induction a as [| [|] a IH]; simpl; auto.
Qed.

(** X2. [any_of_v] does not depend on the order of the pack: two packs
    that are permutations of each other have the same value. *)
Theorem any_of_v_permutation :
  forall a b : list bool,
    Permutation.Permutation a b -> MPL.any_of_v a = MPL.any_of_v b.
Proof.
  intros a b H. unfold MPL.any_of_v.
  induction H as [| x a b H IH | x y a | a b c H1 IH1 H2 IH2]; simpl.
  - reflexivity.
  - destruct x; [reflexivity | exact IH].
  - destruct x, y; reflexivity.
  - now rewrite IH1.
Qed.

Lemma any_of_v_permutation_witness :
  MPL.any_of_v [false; true; false] = MPL.any_of_v [false; false; true].
Proof.
  apply any_of_v_permutation.
  apply Permutation.perm_skip, Permutation.perm_swap.
Defined.

(** ** More on the recursive collector *)

(** X3. The collector looks at nothing but the children of the element it
    is given, and it composes over them: when the children of [d] are
    those of [d1] followed by those of [d2], collecting below [d] is
    collecting below [d1] and then, into the same vector, below [d2]. *)
Theorem collectSensitive_children_app :
  forall (units_cm : Q) (cfg : Config) (axes_ : string)
         (d d1 d2 : DetElement) (surfaces : list Surface),
    children d = (children d1 ++ children d2)%list ->
    collectSensitive units_cm cfg d surfaces axes_
    = collectSensitive units_cm cfg d2
        (collectSensitive units_cm cfg d1 surfaces axes_) axes_.
Proof.
  intros units_cm cfg axes_ d d1 d2 surfaces H.
  rewrite !collectSensitive_children, H. apply fold_left_app.
Qed.

Lemma collectSensitive_children_app_witness :
  collectSensitive 10 (sample_config [] [] []) two_module_element [] "XYZ"
  = collectSensitive 10 (sample_config [] [] [])
      (sample_element None iron true plain_extension
         [("b", sample_module_b)])
      (collectSensitive 10 (sample_config [] [] [])
         (sample_element None vacuum false envelope_extension
            [("a", sample_module_a)])
         [] "XYZ")
      "XYZ".
Proof.
  apply collectSensitive_children_app. reflexivity.
Defined.

(** X4. Every surface the collector returns for an element belongs to a
    detector element made for one of its sensitive strict descendants,
    flagged as non-disc, with the axes string passed in; a descendant
    without extension is collected all the same, with null material and
    null digitization module. *)
Theorem collectSensitive_surfaces :
  forall (units_cm : Q) (cfg : Config) (axes_ : string) (d : DetElement),
    Forall (collected_from units_cm cfg axes_ d)
           (collectSensitive units_cm cfg d [] axes_).
Proof.
  intros units_cm cfg axes_ d.
  rewrite collectSensitive_appends. simpl.
  apply Forall_map, Forall_forall. intros x Hx.
  apply filter_In in Hx. destruct Hx as [Hin Hsens].
  unfold collected_from, createSensitiveSurface.
  destruct (extension x) as [e |] eqn:E;
    eexists; (split; [reflexivity |]); simpl; rewrite ?E; repeat split;
    assumption.
Qed.

(** ** The loop over the layer elements *)

Lemma for_each_push_back {A B} (P : A -> B -> Prop)
  (body : list B -> A -> Exec (list B)) :
  (forall s x lg s' lg',
      body s x lg = (Returned s', lg') ->
      exists y, s' = push_back s y /\ P x y) ->
  forall xs s lg s' lg',
    for_each xs s body lg = (Returned s', lg') ->
    exists ys, s' = (s ++ ys)%list /\ Forall2 P xs ys.
Proof.
  intros Hbody xs. induction xs as [| x xs IH]; intros s lg s' lg' H.
  - simpl in H. unfold ret in H. injection H as <- <-.
    exists []. split; [now rewrite app_nil_r | constructor].
  - simpl in H. unfold bind in H.
    destruct (body s x lg) as [[s1 | e |] lg1] eqn:E; try discriminate.
    destruct (Hbody _ _ _ _ _ E) as (y & -> & Hy).
    destruct (IH _ _ _ _ H) as (ys & -> & Hys).
    exists (y :: ys). split; [| constructor; assumption].
    unfold push_back. now rewrite <- app_assoc.
Qed.

Ltac unfold_body H :=
  cbv beta iota zeta
      delta [negativeLayers_body centralLayers_body positiveLayers_body
             get_extension bind ret throw] in H.

Section BodyInversion.

Variable units_cm : Q.
Variable ctor : list Surface -> ProtoLayer.
Variable default_isDisc : bool.
Variable default_axes : string.
Variable cfg : Config.

Lemma negative_body_returned layers d lg layers' lg' :
  negativeLayers_body units_cm ctor default_axes cfg layers d lg
  = (Returned layers', lg') ->
  exists ext pl ad lg1,
    let surfaces := collectSensitive units_cm cfg d [] (axes ext) in
    let t := convertTransform units_cm (worldTransformation d) in
    extension d = Some ext
    /\ negativeLayers_protoLayer units_cm ctor d ext surfaces t (shape d) lg
       = (Returned pl, lg1)
    /\ negativeLayers_approachDescriptor ext pl t lg1 = (Returned ad, lg')
    /\ layers'
       = push_back layers
           (Layer_setAssociatedMaterial
              (negativeLayers_createLayer units_cm default_axes cfg d
                 surfaces pl t ad)
              (negativeLayers_surfaceMaterial units_cm d pl)).
Proof.
  intros H. unfold_body H.
  destruct (extension d) as [ext |]; [| discriminate].
  destruct (negativeLayers_protoLayer _ _ _ _ _ _ _ _)
    as [[pl | e |] lg1] eqn:Epl; try discriminate.
  destruct (negativeLayers_approachDescriptor _ _ _ _)
    as [[ad | e |] lg2] eqn:Ead; try discriminate.
  injection H as <- <-. exists ext, pl, ad, lg1. cbv zeta. auto.
Qed.

Lemma positive_body_returned layers d lg layers' lg' :
  positiveLayers_body units_cm ctor default_axes cfg layers d lg
  = (Returned layers', lg') ->
  exists ext pl ad lg1,
    let surfaces := collectSensitive units_cm cfg d [] (axes ext) in
    let t := convertTransform units_cm (worldTransformation d) in
    extension d = Some ext
    /\ positiveLayers_protoLayer units_cm ctor d ext surfaces t (shape d) lg
       = (Returned pl, lg1)
    /\ positiveLayers_approachDescriptor ext pl t lg1 = (Returned ad, lg')
    /\ layers'
       = push_back layers
           (Layer_setAssociatedMaterial
              (positiveLayers_createLayer units_cm default_axes cfg d
                 surfaces pl t ad)
              (positiveLayers_surfaceMaterial units_cm d pl)).
Proof.
  intros H. unfold_body H.
  destruct (extension d) as [ext |]; [| discriminate].
  destruct (positiveLayers_protoLayer _ _ _ _ _ _ _ _)
    as [[pl | e |] lg1] eqn:Epl; try discriminate.
  destruct (positiveLayers_approachDescriptor _ _ _ _)
    as [[ad | e |] lg2] eqn:Ead; try discriminate.
  injection H as <- <-. exists ext, pl, ad, lg1. cbv zeta. auto.
Qed.

Lemma central_body_returned layers d lg layers' lg' :
  centralLayers_body units_cm ctor default_isDisc default_axes cfg layers d
    lg
  = (Returned layers', lg') ->
  exists ext pl ad lg1,
    let surfaces := collectSensitive units_cm cfg d [] (axes ext) in
    let t := convertTransform units_cm (worldTransformation d) in
    extension d = Some ext
    /\ centralLayers_protoLayer units_cm ctor d ext surfaces (shape d) lg
       = (Returned pl, lg1)
    /\ centralLayers_approachDescriptor ext pl t (centralLayers_halfZ pl) lg1
       = (Returned ad, lg')
    /\ layers'
       = push_back layers
           (Layer_setAssociatedMaterial
              (centralLayers_createLayer units_cm default_isDisc
                 default_axes cfg d surfaces pl t (centralLayers_halfZ pl)
                 ad)
              (centralLayers_surfaceMaterial units_cm d pl)).
Proof.
  intros H. unfold_body H.
  destruct (extension d) as [ext |]; [| discriminate].
  destruct (centralLayers_protoLayer _ _ _ _ _ _ _)
    as [[pl | e |] lg1] eqn:Epl; try discriminate.
  destruct (centralLayers_approachDescriptor _ _ _ _ _)
    as [[ad | e |] lg2] eqn:Ead; try discriminate.
  injection H as <- <-. exists ext, pl, ad, lg1. cbv zeta. auto.
Qed.

(** The three pipelines return what their loop returns. *)
Lemma negativeLayers_returned lg layers lg' :
  negativeLayers units_cm ctor default_axes cfg lg = (Returned layers, lg') ->
  exists lg0,
    for_each (negativeLayers_cfg cfg) []
      (negativeLayers_body units_cm ctor default_axes cfg) lg0
    = (Returned layers, lg').
Proof.
  unfold negativeLayers. intros H.
  destruct (negativeLayers_cfg cfg) as [| d nodes].
  - cbv in H. injection H as <- <-. eexists. reflexivity.
  - unfold bind at 1, ACTS_VERBOSE in H. cbv beta iota in H.
    rewrite bind_ret_r in H. eexists. exact H.
Qed.

Lemma centralLayers_returned lg layers lg' :
  centralLayers units_cm ctor default_isDisc default_axes cfg lg
  = (Returned layers, lg') ->
  exists lg0,
    for_each (centralLayers_cfg cfg) []
      (centralLayers_body units_cm ctor default_isDisc default_axes cfg) lg0
    = (Returned layers, lg').
Proof.
  unfold centralLayers. intros H.
  destruct (centralLayers_cfg cfg) as [| d nodes].
  - cbv in H. injection H as <- <-. eexists. reflexivity.
  - unfold bind at 1, ACTS_VERBOSE in H. cbv beta iota in H.
    rewrite bind_ret_r in H. eexists. exact H.
Qed.

Lemma positiveLayers_returned lg layers lg' :
  positiveLayers units_cm ctor default_axes cfg lg = (Returned layers, lg') ->
  exists lg0,
    for_each (positiveLayers_cfg cfg) []
      (positiveLayers_body units_cm ctor default_axes cfg) lg0
    = (Returned layers, lg').
Proof.
  unfold positiveLayers. intros H.
  destruct (positiveLayers_cfg cfg) as [| d nodes].
  - cbv in H. injection H as <- <-. eexists. reflexivity.
  - unfold bind at 1, ACTS_VERBOSE in H. cbv beta iota in H.
    rewrite bind_ret_r in H. eexists. exact H.
Qed.

End BodyInversion.

Section RegionFacts.

Variable units_cm : Q.
Variable ctor : list Surface -> ProtoLayer.
Variable default_isDisc : bool.
Variable default_axes : string.
Variable cfg : Config.
Variable r : Region.

Let body := region_body units_cm ctor default_isDisc default_axes r cfg.

(** The layer the loop body appends for [d], given the proto layer and the
    approach descriptor. *)
Let layer_of (d : DetElement) (ext : IActsExtension) (pl : ProtoLayer)
  (ad : option ApproachDescriptor) : Layer :=
  Layer_setAssociatedMaterial
    (region_createLayer units_cm default_isDisc default_axes r cfg d
       (collectSensitive units_cm cfg d [] (axes ext)) pl
       (convertTransform units_cm (worldTransformation d)) ad)
    (region_surfaceMaterial units_cm r d pl).

Lemma region_body_returned layers d lg layers' lg' :
  body layers d lg = (Returned layers', lg') ->
  exists ext pl ad lg1,
    extension d = Some ext
    /\ region_protoLayer units_cm ctor r d ext
         (collectSensitive units_cm cfg d [] (axes ext))
         (convertTransform units_cm (worldTransformation d)) lg
       = (Returned pl, lg1)
    /\ region_approachDescriptor r ext pl
         (convertTransform units_cm (worldTransformation d)) lg1
       = (Returned ad, lg')
    /\ layers' = push_back layers (layer_of d ext pl ad).
Proof.
  unfold body, layer_of. destruct r; simpl; intros H.
  - apply negative_body_returned in H. exact H.
  - apply central_body_returned in H. exact H.
  - apply positive_body_returned in H. exact H.
Qed.

Lemma region_body_run layers d ext pl ad lg lg1 lg' :
  extension d = Some ext ->
  region_protoLayer units_cm ctor r d ext
    (collectSensitive units_cm cfg d [] (axes ext))
    (convertTransform units_cm (worldTransformation d)) lg
  = (Returned pl, lg1) ->
  region_approachDescriptor r ext pl
    (convertTransform units_cm (worldTransformation d)) lg1
  = (Returned ad, lg') ->
  body layers d lg = (Returned (push_back layers (layer_of d ext pl ad)), lg').
Proof.
  unfold body, layer_of. intros Hext Hpl Had.
  destruct r; simpl in *;
    cbv beta iota zeta
        delta [negativeLayers_body centralLayers_body positiveLayers_body
               get_extension bind ret throw];
    rewrite Hext, Hpl, Had; reflexivity.
Qed.

Lemma region_body_push_back layers d lg layers' lg' :
  body layers d lg = (Returned layers', lg') ->
  exists l, layers' = push_back layers l /\ builds body d l.
Proof.
  intros H. apply region_body_returned in H.
  destruct H as (ext & pl & ad & lg1 & Hext & Hpl & Had & ->).
  exists (layer_of d ext pl ad). split; [reflexivity |].
  exists lg, lg'. exact (region_body_run [] d ext pl ad lg lg1 lg' Hext Hpl Had).
Qed.

Lemma region_layers_returned lg layers lg' :
  region_layers units_cm ctor default_isDisc default_axes r cfg lg
  = (Returned layers, lg') ->
  exists lg0,
    for_each (region_nodes r cfg) [] body lg0 = (Returned layers, lg').
Proof.
  unfold body. destruct r; simpl; intros H.
  - apply negativeLayers_returned in H. exact H.
  - apply centralLayers_returned in H. exact H.
  - apply positiveLayers_returned in H. exact H.
Qed.

Lemma region_layers_run lg :
  exists e,
    is_verbose e
    /\ region_layers units_cm ctor default_isDisc default_axes r cfg lg
       = match region_nodes r cfg with
         | [] => (Returned [], (lg ++ [e])%list)
         | nodes => for_each nodes [] body (lg ++ [e])%list
         end.
Proof.
  unfold body.
  destruct r; simpl;
    unfold negativeLayers, centralLayers, positiveLayers;
    [ destruct (negativeLayers_cfg cfg)
    | destruct (centralLayers_cfg cfg)
    | destruct (positiveLayers_cfg cfg) ];
    eexists; (split; [| solve [ reflexivity
                              | unfold bind at 1, ACTS_VERBOSE;
                                cbv beta iota; rewrite bind_ret_r;
                                reflexivity ]]);
    reflexivity.
Qed.

End RegionFacts.

(** X5. Whenever a region pipeline returns, it returns exactly one layer
    per element of the region's list, in the order of the list: the i-th
    layer is the one the loop body builds for the i-th element on its own,
    whatever came before it. *)
Theorem one_layer_per_node_in_order :
  forall (units_cm : Q) (ctor : list Surface -> ProtoLayer)
         (default_isDisc : bool) (default_axes : string) (r : Region)
         (cfg : Config) (lg lg' : Log) (layers : LayerVector),
    region_layers units_cm ctor default_isDisc default_axes r cfg lg
    = (Returned layers, lg') ->
    List.length layers = List.length (region_nodes r cfg)
    /\ Forall2
         (builds (region_body units_cm ctor default_isDisc default_axes r
                    cfg))
         (region_nodes r cfg) layers.
Proof.
  intros units_cm ctor default_isDisc default_axes r cfg lg lg' layers H.
  apply region_layers_returned in H. destruct H as (lg0 & H).
  apply for_each_push_back
    with (P := builds (region_body units_cm ctor default_isDisc
                         default_axes r cfg)) in H.
  - destruct H as (ys & -> & HF). simpl.
    split; [symmetry; eapply Forall2_length; exact HF | exact HF].
  - intros s x lg1 s' lg1' Hb.
    eapply region_body_push_back. exact Hb.
Qed.

Lemma one_layer_per_node_in_order_witness :
  exists layers lg',
    centralLayers 10 sample_ProtoLayer_ctor false "XYZ" mixed_config []
    = (Returned layers, lg')
    /\ List.length layers = 3%nat
    /\ Forall2
         (builds (centralLayers_body 10 sample_ProtoLayer_ctor false "XYZ"
                    mixed_config))
         [enveloped_box_element; filled_tube_element; supported_tube_element]
         layers.
Proof.
  do 2 eexists. split; [vm_compute; reflexivity |].
  exact (one_layer_per_node_in_order 10 sample_ProtoLayer_ctor false "XYZ"
           Central mixed_config [] _ _ eq_refl).
Defined.

(** X6. Whenever a region pipeline returns, the bulk material of every
    returned layer is the one resolved from the native material of its
    element, whatever material the layer had after its construction: null
    when the native name is "vacuum" in any casing, and otherwise a
    homogeneous material with the unit-converted radiation length,
    interaction length, A, Z and density and a non-negative thickness. *)
Theorem every_layer_gets_resolved_material :
  forall (units_cm : Q) (ctor : list Surface -> ProtoLayer)
         (default_isDisc : bool) (default_axes : string) (r : Region)
         (cfg : Config) (lg lg' : Log) (layers : LayerVector),
    region_layers units_cm ctor default_isDisc default_axes r cfg lg
    = (Returned layers, lg') ->
    Forall2 (material_resolved units_cm) (region_nodes r cfg) layers.
Proof.
  intros units_cm ctor default_isDisc default_axes r cfg lg lg' layers H.
  apply region_layers_returned in H. destruct H as (lg0 & H).
  apply for_each_push_back with (P := material_resolved units_cm) in H.
  - destruct H as (ys & -> & HF). exact HF.
  - intros s d lg1 s' lg1' Hb. apply region_body_returned in Hb.
    destruct Hb as (ext & pl & ad & lg2 & _ & _ & _ & ->).
    eexists. split; [reflexivity |].
    unfold material_resolved. simpl l_material.
    unfold region_surfaceMaterial, negativeLayers_surfaceMaterial,
      centralLayers_surfaceMaterial, positiveLayers_surfaceMaterial.
    destruct r; destruct (iequals _ _); cbn [negb]; cbv beta iota zeta;
      try reflexivity;
      eexists; (split; [reflexivity | split; [reflexivity |]]);
      cbn [thickness]; apply Qabs_nonneg.
Qed.

Lemma every_layer_gets_resolved_material_witness :
  exists layers lg',
    centralLayers 10 sample_ProtoLayer_ctor false "XYZ" painting_config []
    = (Returned layers, lg')
    /\ Forall2 (material_resolved 10)
         [empty_tube_element; enveloped_box_element] layers.
Proof.
  do 2 eexists. split; [vm_compute; reflexivity |].
  exact (every_layer_gets_resolved_material 10 sample_ProtoLayer_ctor false
           "XYZ" Central painting_config [] _ _ eq_refl).
Defined.

(** ** Success and failure of the pipelines *)

Section Success.

Variable units_cm : Q.
Variable ctor : list Surface -> ProtoLayer.
Variable default_isDisc : bool.
Variable default_axes : string.
Variable cfg : Config.
Variable r : Region.

Let body := region_body units_cm ctor default_isDisc default_axes r cfg.

Lemma protoLayer_buildable d ext surfaces t lg :
  extension d = Some ext ->
  buildable d = true ->
  exists pl,
    region_protoLayer units_cm ctor r d ext surfaces t lg = (Returned pl, lg).
Proof.
  intros Hext Hb. unfold buildable in Hb. rewrite Hext in Hb.
  unfold region_protoLayer, negativeLayers_protoLayer,
    centralLayers_protoLayer, positiveLayers_protoLayer.
  destruct (buildEnvelope ext).
  - destruct r; eexists; reflexivity.
  - simpl in Hb.
    destruct (shape d) as [[dx dy dz | rmin rmax dz | rmin rmax dz p1 p2] |];
      try discriminate.
    destruct r; run_exec;
      unfold negativeLayers_tubeExtent, positiveLayers_tubeExtent;
      try destruct (Qlt_le_dec _ _); destruct surfaces;
      eexists; reflexivity.
Qed.

Lemma approachDescriptor_returns ext pl t lg :
  exists ad es,
    region_approachDescriptor r ext pl t lg = (Returned ad, (lg ++ es)%list)
    /\ Forall is_verbose es.
Proof.
  unfold region_approachDescriptor, negativeLayers_approachDescriptor,
    centralLayers_approachDescriptor, positiveLayers_approachDescriptor.
  destruct (hasSupportMaterial ext).
  - destruct r; run_exec; try destruct (Qlt_le_dec _ _);
      do 2 eexists; (split; [reflexivity |]);
      repeat constructor.
  - exists None, []. rewrite app_nil_r.
    split; [destruct r; reflexivity | constructor].
Qed.

Lemma body_buildable d :
  buildable d = true ->
  forall layers lg,
    exists l es,
      body layers d lg = (Returned (push_back layers l), (lg ++ es)%list)
      /\ Forall is_verbose es.
Proof.
  intros Hb layers lg.
  assert (Hext : exists ext, extension d = Some ext).
  { unfold buildable in Hb. destruct (extension d) as [ext |];
      [eauto | discriminate]. }
  destruct Hext as (ext & Hext).
  destruct (protoLayer_buildable d ext
              (collectSensitive units_cm cfg d [] (axes ext))
              (convertTransform units_cm (worldTransformation d)) lg
              Hext Hb) as (pl & Hpl).
  destruct (approachDescriptor_returns ext pl
              (convertTransform units_cm (worldTransformation d)) lg)
    as (ad & es & Had & Hes).
  eexists. exists es. split; [| exact Hes].
  unfold body.
  exact (region_body_run units_cm ctor default_isDisc default_axes cfg r
           layers d ext pl ad lg lg _ Hext Hpl Had).
Qed.

Lemma for_each_buildable nodes :
  forallb buildable nodes = true ->
  forall layers lg,
    exists ls es,
      for_each nodes layers body lg
      = (Returned (layers ++ ls)%list, (lg ++ es)%list)
      /\ List.length ls = List.length nodes
      /\ Forall is_verbose es.
Proof.
  induction nodes as [| d nodes IH]; intros Hall layers lg; simpl in *.
  - exists [], []. rewrite !app_nil_r. repeat split. constructor.
  - apply andb_true_iff in Hall. destruct Hall as [Hd Hall].
    destruct (body_buildable d Hd layers lg) as (l & es1 & Hrun & Hes1).
    destruct (IH Hall (push_back layers l) (lg ++ es1)%list)
      as (ls & es2 & Hrest & Hlen & Hes2).
    exists (l :: ls), (es1 ++ es2)%list.
    unfold bind. rewrite Hrun, Hrest. unfold push_back.
    rewrite <- !app_assoc. simpl. split; [reflexivity |].
    split; [now rewrite Hlen | apply Forall_app; auto].
Qed.

End Success.

(** X7. When every element of a region's list has an extension and either
    an explicit envelope or a tube segment as shape, the region pipeline
    returns: it yields as many layers as there are elements, nothing is
    thrown, and everything it adds to the log is at the VERBOSE level (no
    error is reported).  An explicit envelope makes the shape
    irrelevant. *)
Theorem buildable_nodes_give_layers :
  forall (units_cm : Q) (ctor : list Surface -> ProtoLayer)
         (default_isDisc : bool) (default_axes : string) (r : Region)
         (cfg : Config) (lg : Log),
    forallb buildable (region_nodes r cfg) = true ->
    exists layers es,
      region_layers units_cm ctor default_isDisc default_axes r cfg lg
      = (Returned layers, (lg ++ es)%list)
      /\ List.length layers = List.length (region_nodes r cfg)
      /\ Forall is_verbose es.
Proof.
  intros units_cm ctor default_isDisc default_axes r cfg lg Hall.
  destruct (region_layers_run units_cm ctor default_isDisc default_axes
              cfg r lg) as (e & He & Hrun).
  rewrite Hrun.
  destruct (region_nodes r cfg) as [| d nodes] eqn:E; cbv beta iota.
  - exists [], [e]. repeat split. repeat constructor. exact He.
  - destruct (for_each_buildable units_cm ctor default_isDisc default_axes
                cfg r (d :: nodes) Hall [] (lg ++ [e])%list)
      as (ls & es & Hfe & Hlen & Hes).
    exists ls, (e :: es).
    split; [| split; [exact Hlen | constructor; assumption]].
    etransitivity; [exact Hfe |].
    rewrite <- app_assoc. reflexivity.
Qed.

Lemma buildable_nodes_give_layers_witness :
  exists layers es,
    centralLayers 10 sample_ProtoLayer_ctor false "XYZ" mixed_config []
    = (Returned layers, es)
    /\ List.length layers = 3%nat
    /\ Forall is_verbose es.
Proof.
  exact (buildable_nodes_give_layers 10 sample_ProtoLayer_ctor false "XYZ"
           Central mixed_config [] eq_refl).
Defined.

(** X8. In every region, an element with an extension but neither an
    explicit envelope nor any shape makes the loop body throw a
    [std::logic_error] whose text names the element, with nothing added
    to the log; wherever such an element stands in the list, the pipeline
    returns no layer vector, not even the layers of the elements before
    it. *)
Theorem missing_shape_throws :
  forall (units_cm : Q) (ctor : list Surface -> ProtoLayer)
         (default_isDisc : bool) (default_axes : string) (r : Region)
         (cfg : Config) (d : DetElement) (ext : IActsExtension),
    In d (region_nodes r cfg) ->
    extension d = Some ext ->
    buildEnvelope ext = false ->
    shape d = None ->
    (forall layers lg,
        region_body units_cm ctor default_isDisc default_axes r cfg layers d
          lg
        = (Thrown (logic_error
                     ("Layer DetElement: " ++ name d ++
                      " has neither a shape nor tolerances for envelopes " ++
                      "added to it" ++
                      String (ascii_of_nat 194) (String (ascii_of_nat 165)
                      "s extension. Please check your detector constructor!"))),
           lg))
    /\ (forall lg,
           returned (region_layers units_cm ctor default_isDisc default_axes
                       r cfg lg) = None).
Proof.
  intros units_cm ctor default_isDisc default_axes r cfg d ext
    Hin Hext Henv Hshape.
  assert (Hbody : forall layers lg,
             region_body units_cm ctor default_isDisc default_axes r cfg
               layers d lg
             = (Thrown (logic_error (no_shape_message d)), lg)).
  { intros layers lg. destruct r; simpl;
      cbv beta iota zeta
          delta [negativeLayers_body centralLayers_body positiveLayers_body
                 get_extension bind ret throw];
      rewrite Hext, Hshape;
      unfold negativeLayers_protoLayer, centralLayers_protoLayer,
        positiveLayers_protoLayer;
      rewrite Henv; reflexivity. }
  split; [exact Hbody |].
  intros lg.
  destruct (region_layers_run units_cm ctor default_isDisc default_axes
              cfg r lg) as (e & _ & Hrun).
  rewrite Hrun.
  destruct (region_nodes r cfg) as [| d0 nodes]; [destruct Hin |].
  cbv beta iota.
  apply for_each_not_returned with (x := d); [exact Hin |].
  intros s lg'. rewrite Hbody. reflexivity.
Qed.

Lemma missing_shape_throws_witness :
  returned
    (negativeLayers 10 sample_ProtoLayer_ctor "XYZ"
       (sample_config [empty_tube_element; shapeless_element] [] []) [])
  = None.
Proof.
  exact (proj2
    (missing_shape_throws 10 sample_ProtoLayer_ctor false "XYZ" Negative
       (sample_config [empty_tube_element; shapeless_element] [] [])
       shapeless_element plain_extension
       (or_intror (or_introl eq_refl)) eq_refl eq_refl eq_refl) []).
Defined.

(** ** How the layers are put together *)

Lemma approachDescriptor_without_support r ext pl t lg ad lg' :
  region_approachDescriptor r ext pl t lg = (Returned ad, lg') ->
  hasSupportMaterial ext = false -> ad = None.
Proof.
  unfold region_approachDescriptor, negativeLayers_approachDescriptor,
    centralLayers_approachDescriptor, positiveLayers_approachDescriptor.
  intros H Hs. rewrite Hs in H.
  destruct r; cbv in H; congruence.
Qed.

(** X9. Whenever a region pipeline returns, each layer is put together
    according to the sensitivity of its element.  For a sensitive element
    the layer is an active layer of the region's kind whose surface array
    holds exactly one surface, that of the element itself, even when
    sensitive descendants were collected; its thickness is not negative.
    For any other element the layer is the one the layer creator
    assembles from all the surfaces collected below the element (one per
    sensitive descendant), with the hints (r, phi) for discs and (phi, z)
    for cylinders, changed only in its material. *)
Theorem layers_by_sensitivity :
  forall (units_cm : Q) (ctor : list Surface -> ProtoLayer)
         (default_isDisc : bool) (default_axes : string) (r : Region)
         (cfg : Config) (lg lg' : Log) (layers : LayerVector),
    region_layers units_cm ctor default_isDisc default_axes r cfg lg
    = (Returned layers, lg') ->
    Forall2 (layer_built_for units_cm ctor default_isDisc default_axes r
               cfg)
            (region_nodes r cfg) layers.
Proof.
  intros units_cm ctor default_isDisc default_axes r cfg lg lg' layers H.
  apply region_layers_returned in H. destruct H as (lg0 & H).
  apply for_each_push_back
    with (P := layer_built_for units_cm ctor default_isDisc default_axes r
                 cfg)
    in H.
  - destruct H as (ys & -> & HF). exact HF.
  - intros s d lg1 s' lg1' Hb. apply region_body_returned in Hb.
    destruct Hb as (ext & pl & ad & lg2 & Hext & Hpl & Had & ->).
    eexists. split; [reflexivity |].
    unfold layer_built_for, region_createLayer, negativeLayers_createLayer,
      centralLayers_createLayer, positiveLayers_createLayer.
    destruct (isSensitive d) eqn:Hs.
    + unfold own_surface_layer.
      destruct r; cbn [l_type l_kind l_surfaceArray l_thickness
                       Layer_setAssociatedMaterial DiscLayer_create
                       CylinderLayer_create];
        repeat split; apply Qabs_nonneg.
    + unfold delegated_layer. exists ext, pl, ad.
      split; [exact Hext |].
      split; [eapply approachDescriptor_without_support; exact Had |].
      cbv zeta. split; [eauto | split].
      * rewrite collectSensitive_appends. simpl.
        rewrite length_map. symmetry. apply sensitive_count_descendants.
      * destruct r; reflexivity.
Qed.

Lemma layers_by_sensitivity_witness :
  exists layers lg',
    negativeLayers 10 sample_ProtoLayer_ctor "XYZ"
      (sample_config [sensitive_filled_element; filled_tube_element] [] [])
      []
    = (Returned layers, lg')
    /\ Forall2 (layer_built_for 10 sample_ProtoLayer_ctor false "XYZ"
                  Negative
                  (sample_config
                     [sensitive_filled_element; filled_tube_element] [] []))
         [sensitive_filled_element; filled_tube_element] layers.
Proof.
  do 2 eexists. split; [vm_compute; reflexivity |].
  exact (layers_by_sensitivity 10 sample_ProtoLayer_ctor false "XYZ"
           Negative
           (sample_config [sensitive_filled_element; filled_tube_element]
              [] [])
           [] _ _ eq_refl).
Defined.

(** ** The geometry of the boundary surfaces *)




(** X11. For a cylinder layer with support material whose proto layer has
    [minR <= maxR], the three approach cylinders are nested: the inner
    radius is at most the central one, which is at most the outer one, and
    the central cylinder lies midway between the other two. *)
Theorem cylinder_approach_surfaces_nested :
  forall (ext : IActsExtension) (pl : ProtoLayer) (t : Transform3D)
         (halfZ : Q) (lg : Log),
    hasSupportMaterial ext = true ->
    minR pl <= maxR pl ->
    exists i c o lg',
      centralLayers_approachDescriptor ext pl t halfZ lg
      = (Returned
           (Some (mkApproachDescriptor
                    [OfCylinder i; OfCylinder c; OfCylinder o])),
         lg')
      /\ cs_radius i <= cs_radius c
      /\ cs_radius c <= cs_radius o
      /\ cs_radius c - cs_radius i == cs_radius o - cs_radius c.
Proof.
  intros ext pl t halfZ lg Hs Hr.
  destruct (central_approachDescriptor_support ext pl t lg Hs halfZ)
    as (i & c & o & bu & lg' & Hrun & _ & _ & (Hi & Ho & Hc) & _).
  exists i, c, o, lg'. rewrite Hi, Ho, Hc.
  split; [exact Hrun |]. repeat split; lra.
Qed.

Lemma cylinder_approach_surfaces_nested_witness :
  exists i c o lg',
    centralLayers_approachDescriptor support_extension
      (mkProtoLayer 10 20 (-50) 50 (0, 0) (0, 0)) sample_transform (- (50))
      []
    = (Returned
         (Some (mkApproachDescriptor
                  [OfCylinder i; OfCylinder c; OfCylinder o])),
       lg')
    /\ cs_radius i <= cs_radius c
    /\ cs_radius c <= cs_radius o
    /\ cs_radius c - cs_radius i == cs_radius o - cs_radius c.
Proof.
  apply (cylinder_approach_surfaces_nested support_extension
           (mkProtoLayer 10 20 (-50) 50 (0, 0) (0, 0)) sample_transform
           (- (50)) [] eq_refl).
  simpl. lra.
Defined.

(** X12. For a cylinder layer with support material whose proto layer has
    [minZ <= maxZ], as the central pipeline calls the construction: the
    half length given to the three approach cylinders is not positive (it
    is minus half the longitudinal span), and the material proxy on the
    selected surface is binned in phi over the full circle and in z from
    the lower edge [(maxZ - minZ) / 2] to the upper edge
    [(minZ - maxZ) / 2], so that its upper edge is at most its lower
    edge. *)
Theorem cylinder_half_length_not_positive :
  forall (ext : IActsExtension) (pl : ProtoLayer) (t : Transform3D)
         (lg : Log),
    hasSupportMaterial ext = true ->
    minZ pl <= maxZ pl ->
    exists i c o bu z lg',
      centralLayers_approachDescriptor ext pl t (centralLayers_halfZ pl) lg
      = (Returned
           (Some (mkApproachDescriptor
                    [OfCylinder i; OfCylinder c; OfCylinder o])),
         lg')
      /\ Forall (fun s =>
                   cs_halfZ s <= 0
                   /\ cs_halfZ s == - ((maxZ pl - minZ pl) / 2))
                [i; c; o]
      /\ proxy_on_selected (layerMaterialPosition ext)
           (SurfaceMaterialProxy bu)
           (OfCylinder i) (OfCylinder c) (OfCylinder o)
      /\ cylinder_material_binning ext pl t bu
      /\ nth_error bu 1 = Some z
      /\ bd_max z <= bd_min z.
Proof.
  intros ext pl t lg Hs Hz.
  unfold centralLayers_approachDescriptor. rewrite Hs. cbv zeta.
  unfold bind, ret, ACTS_VERBOSE. cbv beta iota.
  unfold BinUtility_plus, BinUtility_ctor, push_back. cbn [app].
  assert (Hhalf : centralLayers_halfZ pl == - ((maxZ pl - minZ pl) / 2))
    by (unfold centralLayers_halfZ; field).
  assert (Hneg : centralLayers_halfZ pl <= 0)
    by (unfold centralLayers_halfZ; lra).
  do 6 eexists. split; [reflexivity |].
  split.
  { repeat constructor;
      destruct (layerMaterialPosition ext);
      cbn [LayerMaterialPos_eqb cs_halfZ new_CylinderSurface
           CylinderSurface_setAssociatedMaterial];
      assumption. }
  split.
  { unfold proxy_on_selected.
    destruct (layerMaterialPosition ext); repeat split. }
  split.
  { unfold cylinder_material_binning. eexists.
    split; [reflexivity |]. cbn [bd_bins bd_option bd_value bd_transform
                                 bd_min bd_max].
    repeat split; rewrite Hhalf; field. }
  split; [reflexivity |].
  cbn [bd_min bd_max]. lra.
Qed.

Lemma cylinder_half_length_not_positive_witness :
  exists i c o bu z lg',
    centralLayers_approachDescriptor support_extension
      (mkProtoLayer 10 20 (-50) 50 (0, 0) (0, 0)) sample_transform
      (centralLayers_halfZ (mkProtoLayer 10 20 (-50) 50 (0, 0) (0, 0))) []
    = (Returned
         (Some (mkApproachDescriptor
                  [OfCylinder i; OfCylinder c; OfCylinder o])),
       lg')
    /\ Forall (fun s => cs_halfZ s <= 0 /\ cs_halfZ s == - ((50 - -50) / 2))
              [i; c; o]
    /\ proxy_on_selected outer (SurfaceMaterialProxy bu)
         (OfCylinder i) (OfCylinder c) (OfCylinder o)
    /\ cylinder_material_binning support_extension
         (mkProtoLayer 10 20 (-50) 50 (0, 0) (0, 0)) sample_transform bu
    /\ nth_error bu 1 = Some z
    /\ bd_max z <= bd_min z.
Proof.
  apply (cylinder_half_length_not_positive support_extension
           (mkProtoLayer 10 20 (-50) 50 (0, 0) (0, 0)) sample_transform []
           eq_refl).
  simpl. lra.
Defined.

(** ** More on the proto layer *)

(** X13. In every region, for an element without explicit envelope, a
    proto layer that is returned has no negative padding: each of the four
    padding components is zero or an absolute value.  (With an explicit
    envelope the paddings are the configured margins, whatever their
    sign.) *)
Theorem padding_without_envelope_not_negative :
  forall (units_cm : Q) (ctor : list Surface -> ProtoLayer) (r : Region)
         (d : DetElement) (ext : IActsExtension) (surfaces : list Surface)
         (t : Transform3D) (lg lg' : Log) (pl : ProtoLayer),
    buildEnvelope ext = false ->
    region_protoLayer units_cm ctor r d ext surfaces t lg
    = (Returned pl, lg') ->
    0 <= fst (envR pl) /\ 0 <= snd (envR pl)
    /\ 0 <= fst (envZ pl) /\ 0 <= snd (envZ pl).
Proof.
  intros units_cm ctor r d ext surfaces t lg lg' pl Henv H.
  unfold region_protoLayer, negativeLayers_protoLayer,
    centralLayers_protoLayer, positiveLayers_protoLayer in H.
  rewrite Henv in H.
  destruct (shape d) as [[dx dy dz | rmin rmax dz | rmin rmax dz p1 p2] |];
    try (destruct r; cbv in H; discriminate).
  unfold dynamic_cast_TGeoTubeSeg in H.
  cbv beta iota zeta delta [bind ret deref] in H.
  destruct r;
    [ destruct (negativeLayers_tubeExtent units_cm t _)
        as [[[rMin rMax] zMin] zMax]
    | destruct (centralLayers_tubeExtent units_cm _) as [[rMin rMax] dz']
    | destruct (positiveLayers_tubeExtent units_cm t _)
        as [[[rMin rMax] zMin] zMax] ];
    destruct surfaces;
    match type of H with
    | (Returned ?x, _) = _ => assert (E : x = pl) by congruence
    end;
    rewrite <- E;
    cbn [envR envZ set_minR set_maxR set_minZ set_maxZ set_envR set_envZ
         fst snd];
    repeat split; try apply Qabs_nonneg; apply Qle_refl.
Qed.

Lemma padding_without_envelope_not_negative_witness :
  let pl :=
    mkProtoLayer 12 18 (-40) 40
      (Qabs (1 * 10 - 12), Qabs (2 * 10 - 18))
      (Qabs (- (5 * 10) - -40), Qabs (5 * 10 - 40)) in
  centralLayers_protoLayer 10 sample_ProtoLayer_ctor filled_tube_element
    plain_extension [OfDisc (new_DiscSurface sample_transform 12 18)]
    (Some sample_tube) []
  = (Returned pl, [])
  /\ 0 <= fst (envR pl) /\ 0 <= snd (envR pl)
  /\ 0 <= fst (envZ pl) /\ 0 <= snd (envZ pl).
Proof.
  split; [reflexivity |].
  exact (padding_without_envelope_not_negative 10 sample_ProtoLayer_ctor
           Central filled_tube_element plain_extension
           [OfDisc (new_DiscSurface sample_transform 12 18)]
           sample_transform [] [] _ eq_refl eq_refl).
Defined.

(** X14. In both disc pipelines, whatever the orientation of the element,
    the longitudinal extent read from a tube is centred on the
    unit-converted z position of the element, and its length is twice the
    unit-converted half length of the tube scaled by the absolute z
    component of the element's local z axis. *)
Theorem disc_extent_centred_on_element :
  forall (units_cm : Q) (m : TGeoMatrix) (tube : TubeSeg),
    let t := convertTransform units_cm m in
    let centred (e : Q * Q * Q * Q) :=
      fst (extent_z e) + snd (extent_z e) == 2 * (tr2 m * units_cm)
      /\ snd (extent_z e) - fst (extent_z e)
         == 2 * Qabs (rot8 m * GetDz tube * units_cm) in
    centred (negativeLayers_tubeExtent units_cm t tube)
    /\ centred (positiveLayers_tubeExtent units_cm t tube).
Proof.
  intros units_cm m tube t centred. unfold centred, t.
  unfold negativeLayers_tubeExtent, positiveLayers_tubeExtent, extent_z,
    convertTransform.
  cbn [translation col2 vz vsub vadd vscale].
  destruct (Qlt_le_dec _ _) as [Hlt | Hle]; cbn [fst snd].
  - assert (Habs : Qabs (rot8 m * GetDz tube * units_cm)
                   == - (rot8 m * GetDz tube * units_cm))
      by (apply Qabs_neg; lra).
    rewrite Habs. repeat split; ring.
  - assert (Habs : Qabs (rot8 m * GetDz tube * units_cm)
                   == rot8 m * GetDz tube * units_cm)
      by (apply Qabs_pos; lra).
    rewrite Habs. repeat split; ring.
Qed.

(** ** The regions are independent *)

Lemma collectSensitive_same (units_cm : Q) (r : Region) (cfg cfg' : Config)
  (d : DetElement) (surfaces : list Surface) (axes_ : string) :
  same_inputs_for r cfg cfg' ->
  collectSensitive units_cm cfg d surfaces axes_
  = collectSensitive units_cm cfg' d surfaces axes_.
Proof.
  intros (_ & _ & _ & _ & _ & Hb).
  rewrite !collectSensitive_appends. f_equal. apply map_ext. intros e.
  unfold createSensitiveSurface. rewrite Hb. reflexivity.
Qed.

Lemma createLayer_same (units_cm : Q) (default_isDisc : bool)
  (default_axes : string) (r : Region) (cfg cfg' : Config) (d : DetElement)
  (surfaces : list Surface) (pl : ProtoLayer) (t : Transform3D)
  (ad : option ApproachDescriptor) :
  same_inputs_for r cfg cfg' ->
  region_createLayer units_cm default_isDisc default_axes r cfg d surfaces
    pl t ad
  = region_createLayer units_cm default_isDisc default_axes r cfg' d
      surfaces pl t ad.
Proof.
  intros (_ & HR & HPhi & HZ & Hc & Hb).
  unfold region_createLayer, negativeLayers_createLayer,
    centralLayers_createLayer, positiveLayers_createLayer,
    createSensitiveSurface.
  rewrite HR, HPhi, HZ, Hc, Hb. reflexivity.
Qed.

Lemma region_body_same (units_cm : Q) (ctor : list Surface -> ProtoLayer)
  (default_isDisc : bool) (default_axes : string) (r : Region)
  (cfg cfg' : Config) (layers : LayerVector) (d : DetElement) (lg : Log) :
  same_inputs_for r cfg cfg' ->
  region_body units_cm ctor default_isDisc default_axes r cfg layers d lg
  = region_body units_cm ctor default_isDisc default_axes r cfg' layers d lg.
Proof.
  intros Hsame.
  pose proof (fun d s pl t ad =>
                createLayer_same units_cm default_isDisc default_axes r cfg
                  cfg' d s pl t ad Hsame) as Hcreate.
  pose proof (fun d s a =>
                collectSensitive_same units_cm r cfg cfg' d s a Hsame)
    as Hcollect.
  clear Hsame. unfold region_body, region_createLayer in *.
  destruct r;
    unfold negativeLayers_body, centralLayers_body, positiveLayers_body;
    apply bind_ext; intros ext lg1; cbv zeta;
    rewrite Hcollect;
    apply bind_ext; intros pl lg2;
    apply bind_ext; intros ad lg3;
    rewrite Hcreate; reflexivity.
Qed.

(** X15. A region pipeline reads nothing of the configuration but its own
    node list, the binning hints, the layer creator and the digitization
    switch: two configurations that agree on these give the same result
    and the same log, whatever the node lists of the other two regions. *)
Theorem region_pipeline_ignores_other_regions :
  forall (units_cm : Q) (ctor : list Surface -> ProtoLayer)
         (default_isDisc : bool) (default_axes : string) (r : Region)
         (cfg cfg' : Config) (lg : Log),
    same_inputs_for r cfg cfg' ->
    region_layers units_cm ctor default_isDisc default_axes r cfg lg
    = region_layers units_cm ctor default_isDisc default_axes r cfg' lg.
Proof.
  intros units_cm ctor default_isDisc default_axes r cfg cfg' lg Hsame.
  pose proof (fun layers d lg0 =>
                region_body_same units_cm ctor default_isDisc default_axes
                  r cfg cfg' layers d lg0 Hsame) as Hbody.
  destruct Hsame as (Hnodes & _).
  unfold region_layers, region_body, region_nodes in *.
  destruct r;
    unfold negativeLayers, centralLayers, positiveLayers;
    rewrite Hnodes;
    [ destruct (negativeLayers_cfg cfg')
    | destruct (centralLayers_cfg cfg')
    | destruct (positiveLayers_cfg cfg') ];
    try reflexivity;
    apply bind_ext; intros [] lg1; rewrite !bind_ret_r;
    apply for_each_ext; intros s x lg2; apply Hbody.
Qed.

Lemma region_pipeline_ignores_other_regions_witness :
  centralLayers 10 sample_ProtoLayer_ctor false "XYZ" mixed_config []
  = centralLayers 10 sample_ProtoLayer_ctor false "XYZ"
      (sample_config [shapeless_element]
         [enveloped_box_element; filled_tube_element; supported_tube_element]
         [box_element])
      [].
Proof.
  apply (region_pipeline_ignores_other_regions 10 sample_ProtoLayer_ctor
           false "XYZ" Central).
  repeat split.
Defined.

(** ** The first element that cannot be built *)

Lemma for_each_app {A S} (body : S -> A -> Exec S) (xs ys : list A) :
  forall s lg,
    for_each (xs ++ ys)%list s body lg
    = bind (for_each xs s body) (fun s' => for_each ys s' body) lg.
Proof.
  induction xs as [| x xs IH]; intros s lg; simpl.
  - reflexivity.
  - unfold bind.
    destruct (body s x lg) as [[s' | e |] lg']; try reflexivity.
    rewrite IH. reflexivity.
Qed.

(** X16. When the elements of a region's list up to some element are all
    buildable, and that element has an extension but neither an explicit
    envelope nor a shape, the pipeline ends with the [std::logic_error]
    naming exactly that element; the elements after it are not looked at,
    and the log has only gained VERBOSE entries. *)
Theorem first_shapeless_element_is_reported :
  forall (units_cm : Q) (ctor : list Surface -> ProtoLayer)
         (default_isDisc : bool) (default_axes : string) (r : Region)
         (cfg : Config) (good rest : list DetElement) (d : DetElement)
         (ext : IActsExtension) (lg : Log),
    region_nodes r cfg = (good ++ d :: rest)%list ->
    forallb buildable good = true ->
    extension d = Some ext ->
    buildEnvelope ext = false ->
    shape d = None ->
    exists es,
      region_layers units_cm ctor default_isDisc default_axes r cfg lg
      = (Thrown (logic_error (no_shape_message d)), (lg ++ es)%list)
      /\ Forall is_verbose es.
Proof.
  intros units_cm ctor default_isDisc default_axes r cfg good rest d ext lg
    Hnodes Hgood Hext Henv Hshape.
  assert (Hbody : forall layers lg0,
             region_body units_cm ctor default_isDisc default_axes r cfg
               layers d lg0
             = (Thrown (logic_error (no_shape_message d)), lg0)).
  { intros layers lg0. destruct r; simpl;
      cbv beta iota zeta
          delta [negativeLayers_body centralLayers_body positiveLayers_body
                 get_extension bind ret throw];
      rewrite Hext, Hshape;
      unfold negativeLayers_protoLayer, centralLayers_protoLayer,
        positiveLayers_protoLayer;
      rewrite Henv; reflexivity. }
  destruct (region_layers_run units_cm ctor default_isDisc default_axes
              cfg r lg) as (e & He & Hrun).
  rewrite Hrun, Hnodes.
  destruct (for_each_buildable units_cm ctor default_isDisc default_axes
              cfg r good Hgood [] (lg ++ [e])%list)
    as (ls & es & Hfe & _ & Hes).
  exists (e :: es). split; [| constructor; assumption].
  assert (Hloop :
            for_each (good ++ d :: rest)%list []
              (region_body units_cm ctor default_isDisc default_axes r cfg)
              (lg ++ [e])%list
            = (Thrown (logic_error (no_shape_message d)),
               (lg ++ e :: es)%list)).
  { rewrite for_each_app. unfold bind at 1.
    etransitivity;
      [ apply (f_equal
                 (fun o : Outcome LayerVector * Log =>
                    let (o0, lg') := o in
                    match o0 with
                    | Returned a =>
                        for_each (d :: rest) a
                          (region_body units_cm ctor default_isDisc
                             default_axes r cfg) lg'
                    | Thrown e0 => (Thrown e0, lg')
                    | NullDereference => (NullDereference, lg')
                    end) Hfe) |].
    simpl. unfold bind. rewrite Hbody. rewrite <- app_assoc. reflexivity. }
  destruct (good ++ d :: rest)%list eqn:E; [| exact Hloop].
  destruct good; discriminate E.
Qed.

Lemma first_shapeless_element_is_reported_witness :
  exists es,
    negativeLayers 10 sample_ProtoLayer_ctor "XYZ"
      (sample_config
         [supported_tube_element; shapeless_element; box_element] [] [])
      []
    = (Thrown (logic_error (no_shape_message shapeless_element)), es)
    /\ Forall is_verbose es.
Proof.
  exact (first_shapeless_element_is_reported 10 sample_ProtoLayer_ctor false
           "XYZ" Negative
           (sample_config
              [supported_tube_element; shapeless_element; box_element]
              [] [])
           [supported_tube_element] [box_element] shapeless_element
           plain_extension [] eq_refl eq_refl eq_refl eq_refl eq_refl).
Defined.
